(** * Volatility-skew dashboard: the skew and drift engine

    A shallow embedding of the three dashboard scripts of the repository,

      - [Dashboard/app.py]           (first revision:  module [App]),
      - [Dashboard/latest.py]        (second revision: module [Latest]),
      - [Dashboard/recent_trial.py]  (third revision:  module [RecentTrial]),

    restricted to the functions that carry logic: [classify_options],
    [calculate_volatility_skew], [compare_skews], [load_baseline_skew] and
    [save_baseline_skew], and the part of [main] that wires them together.
    The network fetch and the plots are not part of the model; the baseline
    files are tables of a store of files, written and read by a model of
    pandas' [to_csv] and [read_csv].

    Modelling conventions.

    - A pandas [DataFrame] is the ordered list of its rows.  The frame
      [pd.DataFrame()] that [fetch_options_data] builds for an empty chain
      has no columns at all and is kept apart ([NoColumns]): indexing it
      with a column name raises [KeyError].
    - Numeric columns are float64 in pandas.  They are modelled by exact
      rationals [Q]; [==], [<], [>] on columns are the boolean comparisons
      of [Q] and [-], [abs], [mean] the rational operations.  A [NaN] (the
      mean of an empty selection) is [None]; a strike or an implied
      volatility is a number, never [NaN].  The properties are stated so
      that they read the same on float64: they do not rest on the mean
      being an exact quotient, and where one needs the strikes to be
      comparable with the spot price that is a hypothesis.
    - A Python exception is a [Raise] result, the value [None] is [None]. *)

From Stdlib Require Import List String Bool Arith Lia.
From Stdlib Require Import ZArith QArith Qabs Lqa.
From Stdlib Require Import Sorted OrderedTypeEx.
Import ListNotations.

Local Open Scope Q_scope.

(** ** Results of Python calls *)

Inductive exn : Set :=
| KeyError        (* a column or label that is not there *)
| ValueError      (* [pd.concat([])]: "No objects to concatenate" *)
| AttributeError. (* a method called on [None] *)

Inductive result (A : Type) : Type :=
| Return (a : A)
| Raise (e : exn).

Arguments Return {A} a.
Arguments Raise {A} e.

Definition bind {A B : Type} (r : result A) (k : A -> result B) : result B :=
  match r with
  | Return a => k a
  | Raise e => Raise e
  end.

(** ** Comparisons of the numeric columns *)

Definition Qltb (x y : Q) : bool := negb (Qle_bool y x).
Definition Qgtb (x y : Q) : bool := Qltb y x.

(** ** Data model *)

Inductive Moneyness : Set := ITM | ATM | OTM.

Definition Moneyness_eqb (a b : Moneyness) : bool :=
  match a, b with
  | ITM, ITM | ATM, ATM | OTM, OTM => true
  | _, _ => false
  end.

(** One option quote as [fetch_options_data] delivers it; the further
    fields of the exchange's ['CE'] / ['PE'] records are never read. *)
Record Quote : Set := mkQuote {
  strikePrice : Q;
  expiryDate : string;
  impliedVolatility : Q
}.

(** A quote of a frame that has the ['moneyness'] column. *)
Record Labeled : Set := mkLabeled {
  quote :> Quote;
  moneyness : Moneyness
}.

(** A row of the frame returned by [calculate_volatility_skew] of
    [recent_trial.py]; the columns are in the order of the source. *)
Record SkewRow : Set := mkSkewRow {
  row_strikePrice : Q;
  row_moneyness : Moneyness;
  row_expiryDate : string;
  row_impliedVolatility : Q;
  skew : Q;
  ATM_IV : Q
}.

(** A row of the frame returned by [compare_skews] of [recent_trial.py]. *)
Record ChangeRecord : Set := mkChange {
  chg_strikePrice : Q;
  chg_expiryDate : string;
  ATM_IV_change : Q;
  skew_change : Q
}.

Inductive DataFrame (R : Type) : Type :=
| NoColumns
| Frame (rows : list R).

Arguments NoColumns {R}.
Arguments Frame {R} rows.

(** [fetch_options_data]: [pd.DataFrame(calls_data) if calls_data else
    pd.DataFrame()]. *)
Definition to_frame {R : Type} (data : list R) : DataFrame R :=
  match data with
  | [] => NoColumns
  | _ :: _ => Frame data
  end.

Definition empty {R : Type} (df : list R) : bool :=
  match df with
  | [] => true
  | _ :: _ => false
  end.

(** ** pandas operations used by the scripts *)

Definition Qsum (l : list Q) : Q := fold_right Qplus 0 l.

(** [Series.mean()]: [NaN] on an empty selection, else the sum divided by
    the count.  pandas rounds both operations to float64; here they are
    the exact ones. *)
Definition mean (l : list Q) : option Q :=
  match l with
  | [] => None
  | _ :: _ => Some (Qsum l / inject_Z (Z.of_nat (List.length l)))
  end.

(** The group keys of [groupby]: each key once, in ascending order. *)
Fixpoint insert_key (k : string) (ks : list string) : list string :=
  match ks with
  | [] => [k]
  | k' :: ks' =>
      match String.compare k k' with
      | Lt => k :: ks
      | Eq => ks
      | Gt => k' :: insert_key k ks'
      end
  end.

Definition sorted_unique (ks : list string) : list string :=
  fold_right insert_key [] ks.

(** The rows of one expiry, in the order of the frame. *)
Definition group_of (e : string) (df : list Labeled) : list Labeled :=
  filter (fun r : Labeled => String.eqb (expiryDate r) e) df.

(** [df.groupby('expiryDate')]: the groups in key order. *)
Definition groupby_expiryDate (df : list Labeled) : list (string * list Labeled) :=
  map (fun e => (e, group_of e df))
      (sorted_unique (map (fun r : Labeled => expiryDate r) df)).

(** [df['impliedVolatility'] > 0], row by row. *)
Definition iv_positive (q : Quote) : bool := Qgtb (impliedVolatility q) 0.

(** [df['moneyness'] = v] on a frame without that column. *)
Definition add_moneyness (v : Moneyness) (df : list Quote) : list Labeled :=
  map (fun q => mkLabeled q v) df.

(** [df.loc[mask, 'moneyness'] = v]. *)
Definition loc_set_moneyness (mask : Quote -> bool) (v : Moneyness)
    (df : list Labeled) : list Labeled :=
  map (fun r : Labeled => if mask r then mkLabeled r v else r) df.

(** The label one row has after [df.loc[mask, 'moneyness'] = v]. *)
Definition relabel (mask : bool) (v m : Moneyness) : Moneyness :=
  if mask then v else m.

(** ** Frames as objects

    Where a property is about what a call does to the frame it is given,
    a frame is an object of a store and a Python variable holds its address.
    A frame object keeps its quotes and, when it has one, the ['moneyness']
    column apart, as pandas does.  The frames the scripts build either lack
    that column or have a label in each row. *)

Record frame : Set := mkFrame {
  quotes : DataFrame Quote;
  moneyness_column : option (list Moneyness)
}.

Inductive object : Set :=
| OFrame (f : frame)
| OCurve (rows : list SkewRow).

Definition ref : Set := nat.
Definition heap : Set := list object.

Fixpoint update (p : ref) (o : object) (h : heap) : heap :=
  match h, p with
  | [], _ => []
  | _ :: h', O => o :: h'
  | o' :: h', S p' => o' :: update p' o h'
  end.

(** Computations on the store that may raise. *)
Definition M (A : Type) : Type := heap -> result A * heap.

Definition ret {A : Type} (a : A) : M A := fun h => (Return a, h).

Definition raise {A : Type} (e : exn) : M A := fun h => (Raise e, h).

Definition lift {A : Type} (r : result A) : M A := fun h => (r, h).

Definition mbind {A B : Type} (m : M A) (k : A -> M B) : M B :=
  fun h =>
    match m h with
    | (Return a, h') => k a h'
    | (Raise e, h') => (Raise e, h')
    end.

Notation "x <- m ;; k" := (mbind m (fun x => k))
  (at level 61, m at next level, right associativity).
Notation "m ;;; k" := (mbind m (fun _ => k))
  (at level 61, right associativity).

Definition alloc (o : object) : M ref :=
  fun h => (Return (List.length h), h ++ [o]).

Definition get_frame (p : ref) : M frame :=
  fun h =>
    match nth_error h p with
    | Some (OFrame f) => (Return f, h)
    | _ => (Raise AttributeError, h)
    end.

Definition put (p : ref) (o : object) : M unit :=
  fun h => (Return tt, update p o h).

Definition nrows (f : frame) : nat :=
  match quotes f with
  | NoColumns => O
  | Frame rows => List.length rows
  end.

(** The entries of a column at the rows a mask selects. *)
Definition select {A : Type} (mask : Quote -> bool) (rows : list Quote)
    (col : list A) : list A :=
  map snd (filter (fun qa : Quote * A => mask (fst qa)) (combine rows col)).

(** [df[mask]], the mask computed from the quote columns: a new frame. *)
Definition getitem_mask (p : ref) (mask : Quote -> bool) : M ref :=
  f <- get_frame p ;;
  match quotes f with
  | NoColumns => raise KeyError
  | Frame rows =>
      alloc (OFrame (mkFrame (Frame (filter mask rows))
                             (option_map (select mask rows) (moneyness_column f))))
  end.

(** [df['moneyness'] = v]: the column is created or overwritten in the
    frame itself. *)
Definition setitem_moneyness (p : ref) (v : Moneyness) : M unit :=
  f <- get_frame p ;;
  put p (OFrame (mkFrame (quotes f) (Some (repeat v (nrows f))))).

(** [df.loc[mask, 'moneyness'] = v], in the frame itself.  The scripts
    assign the whole column first; on a frame without the column pandas
    would create it and leave the other rows unlabelled, which the frames
    of this model cannot hold and no script does. *)
Definition loc_setitem_moneyness (p : ref) (mask : Quote -> bool)
    (v : Moneyness) : M unit :=
  f <- get_frame p ;;
  match quotes f, moneyness_column f with
  | Frame rows, Some col =>
      put p (OFrame (mkFrame (quotes f)
               (Some (map (fun qm : Quote * Moneyness =>
                             if mask (fst qm) then v else snd qm)
                          (combine rows col)))))
  | _, _ => raise KeyError
  end.

(** The rows of a labelled frame; [KeyError] when a column is missing. *)
Definition labeled_rows (f : frame) : result (list Labeled) :=
  match quotes f, moneyness_column f with
  | Frame rows, Some col =>
      Return (map (fun qm : Quote * Moneyness => mkLabeled (fst qm) (snd qm))
                  (combine rows col))
  | _, _ => Raise KeyError
  end.

(** The frame object of a list of labelled rows. *)
Definition frame_of (rows : list Labeled) : frame :=
  mkFrame (Frame (map quote rows)) (Some (map moneyness rows)).

(** A call leaves the store as it was when every object of the store is
    still there, unchanged, afterwards. *)
Definition unchanged (h h' : heap) : Prop :=
  forall (p : ref) (o : object), nth_error h p = Some o -> nth_error h' p = Some o.

(** "The input is left unchanged and the output is a separate value", for
    a classifier on frame objects. *)
Definition leaves_input_unchanged (classify : ref -> Q -> M ref) : Prop :=
  forall (h h' : heap) (options_df : ref) (spot_price : Q) (r : result ref),
    classify options_df spot_price h = (r, h') ->
    nth_error h' options_df = nth_error h options_df /\
    r <> Return options_df.

(** ** [recent_trial.py] *)

Module RecentTrial.

(** [classify_options], lines 45-54. *)
Definition classify_options (options_df : DataFrame Quote) (spot_price : Q)
    : result (list Labeled) :=
  match options_df with
  | NoColumns => Raise KeyError
  | Frame rows =>
      let options_df := filter iv_positive rows in
      let options_df := add_moneyness OTM options_df in
      let options_df :=
        loc_set_moneyness (fun q => Qeq_bool (strikePrice q) spot_price) ATM options_df in
      let options_df :=
        loc_set_moneyness (fun q => Qltb (strikePrice q) spot_price) ITM options_df in
      let options_df :=
        loc_set_moneyness (fun q => Qgtb (strikePrice q) spot_price) OTM options_df in
      Return options_df
  end.

(** The label of a strike after the four assignments of lines 47-52. *)
Definition label (spot_price strike : Q) : Moneyness :=
  relabel (Qgtb strike spot_price) OTM
    (relabel (Qltb strike spot_price) ITM
       (relabel (Qeq_bool strike spot_price) ATM OTM)).

(** One row of a group with the two new columns, lines 73-75. *)
Definition skew_row (atm_iv : Q) (r : Labeled) : SkewRow :=
  mkSkewRow (strikePrice r) (moneyness r) (expiryDate r)
            (impliedVolatility r)
            (impliedVolatility r - atm_iv) atm_iv.

Definition skew_rows (atm_iv : Q) (group : list Labeled) : list SkewRow :=
  map (skew_row atm_iv) group.

(** The ATM selection of a group, line 68. *)
Definition atm_selection (group : list Labeled) : list Q :=
  map (fun r : Labeled => impliedVolatility r)
      (filter (fun r : Labeled => Moneyness_eqb (moneyness r) ATM) group).

(** One pass of the loop of lines 66-75 over the state
    [(skew_data, atm_iv)]. *)
Definition skew_step (st : list (list SkewRow) * option Q)
    (g : string * list Labeled) : list (list SkewRow) * option Q :=
  let '(skew_data, _) := st in
  let '(_, group) := g in
  let atm_iv := mean (atm_selection group) in
  match atm_iv with
  | Some a => (skew_data ++ [skew_rows a group], atm_iv)
  | None => (skew_data, atm_iv)
  end.

(** What one group adds to [skew_data]. *)
Definition emitted (g : string * list Labeled) : list (list SkewRow) :=
  match mean (atm_selection (snd g)) with
  | Some a => [skew_rows a (snd g)]
  | None => []
  end.

(** [calculate_volatility_skew], lines 57-77.  The Python function returns
    the pair [(None, None)] or [(frame, atm_iv)], [atm_iv] being the value
    the loop variable has after the last group. *)
Definition calculate_volatility_skew (options_df : list Labeled)
    : result (option (list SkewRow * option Q)) :=
  let filtered_df := filter (fun r : Labeled => iv_positive r) options_df in
  if empty filtered_df then Return None
  else
    let grouped_df := groupby_expiryDate filtered_df in
    let '(skew_data, atm_iv) := fold_left skew_step grouped_df ([], None) in
    match skew_data with
    | [] => Raise ValueError
    | _ :: _ => Return (Some (List.concat skew_data, atm_iv))
    end.

(** [main], lines 188-193, for one side: classification, then skew. *)
Definition skew_of_snapshot (snapshot : DataFrame Quote) (spot_price : Q)
    : result (option (list SkewRow * option Q)) :=
  bind (classify_options snapshot spot_price) calculate_volatility_skew.

(** [current_skew.merge(baseline_skew, on=['strikePrice', 'expiryDate'],
    suffixes=('_current', '_baseline'))]: the inner join, in the order of
    the left frame. *)
Definition same_key (c b : SkewRow) : bool :=
  Qeq_bool (row_strikePrice c) (row_strikePrice b)
  && String.eqb (row_expiryDate c) (row_expiryDate b).

Definition merge (current_skew baseline_skew : list SkewRow)
    : list (SkewRow * SkewRow) :=
  flat_map (fun c => map (fun b => (c, b)) (filter (same_key c) baseline_skew))
           current_skew.

Definition iv_delta (m : SkewRow * SkewRow) : Q :=
  row_impliedVolatility (fst m) - row_impliedVolatility (snd m).

Definition skew_delta (m : SkewRow * SkewRow) : Q :=
  skew (fst m) - skew (snd m).

Definition significant (threshold : Q) (m : SkewRow * SkewRow) : bool :=
  Qgtb (Qabs (iv_delta m)) threshold || Qgtb (Qabs (skew_delta m)) threshold.

Definition change_of (m : SkewRow * SkewRow) : ChangeRecord :=
  mkChange (row_strikePrice (fst m)) (row_expiryDate (fst m))
           (iv_delta m) (skew_delta m).

(** [compare_skews], lines 91-114. *)
Definition compare_skews (baseline_skew current_skew : option (list SkewRow))
    (threshold : Q) : option (list ChangeRecord) :=
  match baseline_skew, current_skew with
  | Some baseline_skew, Some current_skew =>
      let merged_skew := merge current_skew baseline_skew in
      let atm_changes :=
        filter (fun m => Moneyness_eqb (row_moneyness (fst m)) ATM) merged_skew in
      let significant_changes := filter (significant threshold) atm_changes in
      if negb (empty significant_changes)
      then Some (map change_of significant_changes)
      else None
  | _, _ => None
  end.

(** The records a result stands for: [None] is "no significant change"
    ([display_significant_changes], lines 141-143). *)
Definition records (r : option (list ChangeRecord)) : list ChangeRecord :=
  match r with
  | Some l => l
  | None => []
  end.

(** The drift rule in the words of the specification, for the records
    [out] of a baseline and a current frame: every pair of rows that share
    a key has its record exactly when one of the two changes is above the
    threshold. *)
Definition drift_rule_all_keys (baseline_skew current_skew : list SkewRow)
    (threshold : Q) (out : list ChangeRecord) : Prop :=
  forall c b : SkewRow,
    In c current_skew -> In b baseline_skew -> same_key c b = true ->
    (In (change_of (c, b)) out <->
     threshold < Qabs (row_impliedVolatility c - row_impliedVolatility b) \/
     threshold < Qabs (skew c - skew b)).

(** The same two functions on frame objects. *)
Module Heap.

(** [classify_options], lines 45-54: line 46 rebinds [options_df] to the
    frame the boolean indexing returns; the assignments that follow write
    into that frame. *)
Definition classify_options (options_df : ref) (spot_price : Q) : M ref :=
  options_df <- getitem_mask options_df iv_positive ;;
  setitem_moneyness options_df OTM ;;;
  loc_setitem_moneyness options_df (fun q => Qeq_bool (strikePrice q) spot_price) ATM ;;;
  loc_setitem_moneyness options_df (fun q => Qltb (strikePrice q) spot_price) ITM ;;;
  loc_setitem_moneyness options_df (fun q => Qgtb (strikePrice q) spot_price) OTM ;;;
  ret options_df.

(** [calculate_volatility_skew], lines 57-77, in the order of the source:
    line 58 builds [filtered_df], a new frame, from the quote columns
    ([KeyError] on a frame that has none); lines 59-60 return
    [(None, None)] when it is empty; only then is the ['moneyness'] column
    read, at line 68 ([KeyError] when the frame has no such column).  The
    columns ['skew'] and ['ATM_IV'] are written into [group.copy()], and
    [pd.concat] builds the frame that is returned. *)
Definition calculate_volatility_skew (options_df : ref)
    : M (option (ref * option Q)) :=
  filtered_df <- getitem_mask options_df iv_positive ;;
  f <- get_frame filtered_df ;;
  if (nrows f =? 0)%nat then ret None
  else
    rows <- lift (labeled_rows f) ;;
    r <- lift (calculate_volatility_skew rows) ;;
    match r with
    | None => ret None
    | Some (curve, atm_iv) =>
        skew_frame <- alloc (OCurve curve) ;;
        ret (Some (skew_frame, atm_iv))
    end.

End Heap.

End RecentTrial.

(** ** [latest.py] *)

Module Latest.

(** [classify_options], lines 45-50.  The frame is labelled as it is: this
    revision has no filter on the implied volatility here. *)
Definition classify_options (options_df : DataFrame Quote) (spot_price : Q)
    : result (list Labeled) :=
  match options_df with
  | NoColumns => Raise KeyError
  | Frame rows =>
      let options_df := add_moneyness OTM rows in
      let options_df :=
        loc_set_moneyness (fun q => Qeq_bool (strikePrice q) spot_price) ATM options_df in
      let options_df :=
        loc_set_moneyness (fun q => Qltb (strikePrice q) spot_price) ITM options_df in
      let options_df :=
        loc_set_moneyness (fun q => Qgtb (strikePrice q) spot_price) ITM options_df in
      Return options_df
  end.

(** The label of a strike after the four assignments of lines 46-49. *)
Definition label (spot_price strike : Q) : Moneyness :=
  relabel (Qgtb strike spot_price) ITM
    (relabel (Qltb strike spot_price) ITM
       (relabel (Qeq_bool strike spot_price) ATM OTM)).

(** [filtered_df.groupby('moneyness')['impliedVolatility'].mean()] at one
    label; [None] when the label is not a key of the series. *)
Definition group_mean (m : Moneyness) (df : list Labeled) : option Q :=
  mean (map (fun r : Labeled => impliedVolatility r)
            (filter (fun r : Labeled => Moneyness_eqb (moneyness r) m) df)).

(** [Series.diff()] and [Series.fillna(v)]. *)
Fixpoint diff_from (prev : Q) (l : list Q) : list (option Q) :=
  match l with
  | [] => []
  | x :: l' => Some (x - prev) :: diff_from x l'
  end.

Definition diff (l : list Q) : list (option Q) :=
  match l with
  | [] => []
  | x :: l' => None :: diff_from x l'
  end.

Definition fillna (v : Q) (l : list (option Q)) : list Q :=
  map (fun o => match o with Some x => x | None => v end) l.

(** The dictionary [{'ATM_IV': ..., 'Skew': ...}]. *)
Record Summary : Set := mkSummary {
  sum_ATM_IV : Q;
  sum_Skew : Q
}.

(** [calculate_volatility_skew], lines 53-65.  Selecting the labels
    [['ITM', 'OTM']] with [.loc] raises [KeyError] when one of them is
    not a key of the series. *)
Definition calculate_volatility_skew (options_df : list Labeled)
    : result (option Summary) :=
  let filtered_df := filter (fun r : Labeled => iv_positive r) options_df in
  if empty filtered_df then Return None
  else
    let atm_iv :=
      match group_mean ATM filtered_df with
      | Some a => a
      | None => 0
      end in
    match group_mean ITM filtered_df, group_mean OTM filtered_df with
    | Some itm, Some otm =>
        match fillna 0 (diff [itm; otm]) with
        | skew :: _ => Return (Some (mkSummary atm_iv skew))
        | [] => Raise KeyError
        end
    | _, _ => Raise KeyError
    end.

(** [main], lines 148-153, for one side and a spot price that was
    entered. *)
Definition skew_of_snapshot (snapshot : DataFrame Quote) (spot_price : Q)
    : result (option Summary) :=
  bind (classify_options snapshot spot_price) calculate_volatility_skew.

(** [classify_options] on frame objects. *)
Module Heap.

(** [classify_options], lines 45-50: every assignment writes into the
    frame that was passed, and that frame is returned. *)
Definition classify_options (options_df : ref) (spot_price : Q) : M ref :=
  setitem_moneyness options_df OTM ;;;
  loc_setitem_moneyness options_df (fun q => Qeq_bool (strikePrice q) spot_price) ATM ;;;
  loc_setitem_moneyness options_df (fun q => Qltb (strikePrice q) spot_price) ITM ;;;
  loc_setitem_moneyness options_df (fun q => Qgtb (strikePrice q) spot_price) ITM ;;;
  ret options_df.

(** [calculate_volatility_skew], lines 53-65, in the order of the source:
    line 54 builds [filtered_df], a new frame, from the quote columns
    ([KeyError] on a frame that has none); lines 55-56 return [None] when
    it is empty; only then is the ['moneyness'] column read, at line 59
    ([KeyError] when the frame has no such column).  The grouped series is
    a new object and the dictionary is returned by value. *)
Definition calculate_volatility_skew (options_df : ref) : M (option Summary) :=
  filtered_df <- getitem_mask options_df iv_positive ;;
  f <- get_frame filtered_df ;;
  if (nrows f =? 0)%nat then ret None
  else
    rows <- lift (labeled_rows f) ;;
    lift (calculate_volatility_skew rows).

End Heap.

End Latest.

(** ** [app.py] *)

Module App.

(** [calculate_volatility_skew], lines 55-56: the quotes with a positive
    implied volatility, on three columns. *)
Definition calculate_volatility_skew (options_df : DataFrame Quote)
    : result (list Quote) :=
  match options_df with
  | NoColumns => Raise KeyError
  | Frame rows => Return (filter iv_positive rows)
  end.

(** A Python [dict] keyed by [(strikePrice, expiryDate)]: the items in
    insertion order; setting a key that is there keeps its place and its
    key object and replaces the value. *)
Definition key : Set := (Q * string)%type.

Definition key_eqb (a b : key) : bool :=
  Qeq_bool (fst a) (fst b) && String.eqb (snd a) (snd b).

Fixpoint dict_set (k : key) (v : Q) (d : list (key * Q)) : list (key * Q) :=
  match d with
  | [] => [(k, v)]
  | (k', v') :: d' =>
      if key_eqb k' k then (k', v) :: d' else (k', v') :: dict_set k v d'
  end.

Fixpoint dict_get (k : key) (d : list (key * Q)) : option Q :=
  match d with
  | [] => None
  | (k', v') :: d' => if key_eqb k' k then Some v' else dict_get k d'
  end.

(** The comprehension of lines 75 and 76. *)
Definition dict_of (df : list Quote) : list (key * Q) :=
  fold_left (fun d row => dict_set (strikePrice row, expiryDate row)
                                   (impliedVolatility row) d)
            df [].

(** The tuple [(key[0], key[1], current_iv, baseline_iv)]. *)
Record Change : Set := mkIvChange {
  chg_strike : Q;
  chg_expiry : string;
  current_iv : Q;
  baseline_iv : Q
}.

(** [compare_skews], lines 73-82, on two frames. *)
Definition compare_frames (baseline_skew current_skew : list Quote)
    (threshold : Q) : list Change :=
  let baseline_dict := dict_of baseline_skew in
  let current_dict := dict_of current_skew in
  flat_map
    (fun item : key * Q =>
       let '(k, current_iv) := item in
       match dict_get k baseline_dict with
       | Some baseline_iv =>
           if Qgtb (Qabs (current_iv - baseline_iv)) threshold
           then [mkIvChange (fst k) (snd k) current_iv baseline_iv]
           else []
       | None => []
       end)
    current_dict.

(** [compare_skews] has no guard of its own: [None.iterrows()] raises. *)
Definition compare_skews (baseline_skew current_skew : option (list Quote))
    (threshold : Q) : result (list Change) :=
  match baseline_skew, current_skew with
  | Some baseline_skew, Some current_skew =>
      Return (compare_frames baseline_skew current_skew threshold)
  | _, _ => Raise AttributeError
  end.

(** [main], lines 127-130: the comparison of both sides runs only when
    both baselines were loaded; [None] when it is skipped. *)
Definition main_compare (baseline_calls baseline_puts : option (list Quote))
    (calls_data puts_data : list Quote) (threshold : Q)
    : option (result (list Change * list Change)) :=
  match baseline_calls, baseline_puts with
  | Some _, Some _ =>
      Some (bind (compare_skews baseline_calls (Some calls_data) threshold)
              (fun significant_call_changes =>
                 bind (compare_skews baseline_puts (Some puts_data) threshold)
                   (fun significant_put_changes =>
                      Return (significant_call_changes, significant_put_changes))))
  | _, _ => None
  end.

End App.

(** ** Further notions for the properties of the frames *)

(** The order of the group keys: strings compared character by
    character, as Python compares them. *)
Definition expiry_lt (a b : string) : Prop := String.compare a b = Lt.

Definition expiry_le (a b : string) : Prop := String.leb a b = true.


(** The rows the group of one expiry gives to the frame of
    [recent_trial.py]: those of lines 72-75, or none. *)
Definition group_rows (e : string) (df : list Labeled) : list SkewRow :=
  match mean (RecentTrial.atm_selection (group_of e df)) with
  | Some a => RecentTrial.skew_rows a (group_of e df)
  | None => []
  end.

(** A chain quotes one implied volatility for a strike and expiry: two
    quotes with a positive implied volatility and the same key agree
    on it. *)
Definition one_iv_per_key (rows : list Quote) : Prop :=
  forall x y : Quote,
    In x rows -> In y rows ->
    0 < impliedVolatility x -> 0 < impliedVolatility y ->
    strikePrice x == strikePrice y -> expiryDate x = expiryDate y ->
    impliedVolatility x == impliedVolatility y.

(** Rows of a skew frame with the same key agree on implied volatility
    and skew. *)
Definition one_row_per_key (curve : list SkewRow) : Prop :=
  forall r1 r2 : SkewRow,
    In r1 curve -> In r2 curve -> RecentTrial.same_key r1 r2 = true ->
    row_impliedVolatility r1 == row_impliedVolatility r2 /\ skew r1 == skew r2.

(** The key of a quote in the dictionaries of [app.py], and the implied
    volatility of the last row of a frame that has a given key. *)
Definition key_of (row : Quote) : App.key := (strikePrice row, expiryDate row).

Definition last_iv (k : App.key) (df : list Quote) : option Q :=
  fold_left (fun acc row =>
               if App.key_eqb (key_of row) k then Some (impliedVolatility row) else acc)
            df None.

(** No two items of a dictionary have equal keys. *)
Fixpoint distinct_keys (d : list (App.key * Q)) : Prop :=
  match d with
  | [] => True
  | (k, _) :: d' =>
      (forall item, In item d' -> App.key_eqb k (fst item) = false) /\
      distinct_keys d'
  end.

(** ** The skew rule in the words of the specification

    The notions of this section are written from the specification, on the
    fields of the quotes of a snapshot; none of them uses a function of the
    scripts. *)

(** The quotes with a positive implied volatility at one strike and
    expiry, in snapshot order. *)
Definition quoted_at (strike : Q) (e : string) (x : Quote) : bool :=
  negb (Qle_bool (impliedVolatility x) 0)
  && Qeq_bool (strikePrice x) strike
  && String.eqb (expiryDate x) e.

Definition quotes_at (strike : Q) (e : string) (snapshot : list Quote)
    : list Quote :=
  filter (quoted_at strike e) snapshot.

(** The ATM-classified quotes of an expiry: those at the spot price. *)
Definition atm_quotes_of_expiry (spot_price : Q) (e : string)
    (snapshot : list Quote) : list Quote :=
  quotes_at spot_price e snapshot.

(** The arithmetic mean: the total divided by the count; there is none of
    no value. *)
Fixpoint total (l : list Q) : Q :=
  match l with
  | [] => 0
  | x :: l' => x + total l'
  end.

Definition arithmetic_mean (l : list Q) : option Q :=
  match l with
  | [] => None
  | _ :: _ => Some (total l / inject_Z (Z.of_nat (List.length l)))
  end.


(** A chain quotes a strike and expiry once: the quotes with a positive
    implied volatility at the strike and expiry of such a quote are that
    quote alone. *)
Definition one_quote_per_key (snapshot : list Quote) : Prop :=
  forall x : Quote,
    In x snapshot -> 0 < impliedVolatility x ->
    quotes_at (strikePrice x) (expiryDate x) snapshot = [x].

(** A strike that is a number is at, below or above the spot price; the
    three comparisons of a float64 strike that is [NaN] are all false. *)
Definition comparable (spot_price : Q) (x : Quote) : Prop :=
  strikePrice x == spot_price \/ strikePrice x < spot_price \/
  spot_price < strikePrice x.

(** ** The baseline files

    The two baselines are CSV files in the working directory.  A file is
    the table pandas writes: a header row and one row of cells for each row
    of the frame; the store of files maps a file name to the file's
    content. *)

(** Modelled from the spec: the specification describes the file as a
    flat table with a header row (sections 4.3 and 6); the text that
    pandas writes for a number, and the type it infers when it reads a
    field, are not part of this table: a cell is the number or the text of
    its field. *)
Inductive cell : Set :=
| Number (x : Q)
| Text (s : string).

(** Modelled from the spec: a header row and the rows of the table. *)
Record csv : Set := mkCsv {
  header : list string;
  lines : list (list cell)
}.

(** [os.path.exists(filename)] holds when the store has a content for the
    name. *)
Definition files : Type := string -> option csv.

(** Writing a file replaces its content and leaves the other files. *)
Definition write_file (fs : files) (filename : string) (content : csv) : files :=
  fun name => if String.eqb name filename then Some content else fs name.

Fixpoint traverse {A B : Type} (f : A -> option B) (l : list A) : option (list B) :=
  match l with
  | [] => Some []
  | x :: l' =>
      match f x, traverse f l' with
      | Some y, Some ys => Some (y :: ys)
      | _, _ => None
      end
  end.

Definition header_eqb (h1 h2 : list string) : bool :=
  if list_eq_dec string_dec h1 h2 then true else false.

(** Modelled from the spec: the text of the moneyness field, the strings
    that [classify_options] assigns, and its reading. *)
Definition moneyness_text (m : Moneyness) : string :=
  match m with
  | ITM => "ITM"
  | ATM => "ATM"
  | OTM => "OTM"
  end.

Definition moneyness_of_text (s : string) : option Moneyness :=
  if String.eqb s "ITM" then Some ITM
  else if String.eqb s "ATM" then Some ATM
  else if String.eqb s "OTM" then Some OTM
  else None.



(** The baseline files of [recent_trial.py]. *)
Module RecentTrialFiles.

(** The columns of the skew frame, in the order of line 75. *)
Definition columns : list string :=
  ["strikePrice"; "moneyness"; "expiryDate"; "impliedVolatility"; "skew"; "ATM_IV"]%string.

(** Modelled from the spec: the row of the table for a row of the frame,
    and its reading. *)
Definition line_of (r : SkewRow) : list cell :=
  [Number (row_strikePrice r); Text (moneyness_text (row_moneyness r));
   Text (row_expiryDate r); Number (row_impliedVolatility r);
   Number (skew r); Number (ATM_IV r)].

Definition row_of (l : list cell) : option SkewRow :=
  match l with
  | [Number s; Text m; Text e; Number iv; Number sk; Number a] =>
      match moneyness_of_text m with
      | Some m => Some (mkSkewRow s m e iv sk a)
      | None => None
      end
  | _ => None
  end.

(** Modelled from the spec: pandas' [DataFrame.to_csv(filename,
    index=False)] is not code of the repository.  The specification gives
    the format of the file (sections 4.3 and 6): a flat table with a header
    row and one row for each (strike, expiry, moneyness, implied
    volatility, skew, ATM reference), the row index left out; a cell holds
    the number or the text of its field. *)
Definition to_csv (df : list SkewRow) : csv :=
  mkCsv columns (map line_of df).

(** Modelled from the spec: pandas' [read_csv(filename)] is not code of
    the repository.  It reads a table of the format above back into a
    frame with the columns of the header; a file that is not of that format
    (no header row of these columns, or a row that does not hold the six
    fields) is not a baseline, and reading it is an error here. *)
Definition read_csv (content : csv) : result (list SkewRow) :=
  if header_eqb (header content) columns
  then match traverse row_of (lines content) with
       | Some df => Return df
       | None => Raise ValueError
       end
  else Raise ValueError.

(** [load_baseline_skew], lines 80-83. *)
Definition load_baseline_skew (fs : files) (filename : string)
    : result (option (list SkewRow)) :=
  match fs filename with
  | Some content => bind (read_csv content) (fun df => Return (Some df))
  | None => Return None
  end.

(** [save_baseline_skew], lines 86-88: nothing is written for [None]. *)
Definition save_baseline_skew (fs : files) (baseline_skew : option (list SkewRow))
    (filename : string) : files :=
  match baseline_skew with
  | Some df => write_file fs filename (to_csv df)
  | None => fs
  end.

End RecentTrialFiles.

(** The baseline files of [app.py]; the frames have the three columns of
    a quote. *)
Module AppFiles.

(** The columns that line 56 selects. *)
Definition columns : list string :=
  ["strikePrice"; "expiryDate"; "impliedVolatility"]%string.

(** Modelled from the spec: the row of the table for a row of the frame,
    and its reading. *)
Definition line_of (r : Quote) : list cell :=
  [Number (strikePrice r); Text (expiryDate r); Number (impliedVolatility r)].

Definition row_of (l : list cell) : option Quote :=
  match l with
  | [Number s; Text e; Number iv] => Some (mkQuote s e iv)
  | _ => None
  end.

(** Modelled from the spec: pandas' [DataFrame.to_csv(filename,
    index=False)], as for [recent_trial.py], on the three columns that
    [calculate_volatility_skew] of [app.py] selects. *)
Definition to_csv (df : list Quote) : csv :=
  mkCsv columns (map line_of df).

(** Modelled from the spec: pandas' [read_csv(filename)], as for
    [recent_trial.py]. *)
Definition read_csv (content : csv) : result (list Quote) :=
  if header_eqb (header content) columns
  then match traverse row_of (lines content) with
       | Some df => Return df
       | None => Raise ValueError
       end
  else Raise ValueError.

(** [load_baseline_skew], lines 45-48. *)
Definition load_baseline_skew (fs : files) (filename : string)
    : result (option (list Quote)) :=
  match fs filename with
  | Some content => bind (read_csv content) (fun df => Return (Some df))
  | None => Return None
  end.

(** [save_baseline_skew], lines 51-52: there is no guard, [None.to_csv]
    raises. *)
Definition save_baseline_skew (fs : files) (baseline_skew : option (list Quote))
    (filename : string) : result files :=
  match baseline_skew with
  | Some df => Return (write_file fs filename (to_csv df))
  | None => Raise AttributeError
  end.

End AppFiles.

(** ** Concrete data *)

Definition q (s : Z) (e : string) (iv : Q) : Quote := mkQuote (inject_Z s) e iv.

(** A chain of two expiries for a spot price of 100: the first has a quote
    at the spot price and an unquoted strike, the second has no quote at
    the spot price. *)
Definition chain1 : list Quote :=
  [q 95 "2024-01-25" 0.25; q 100 "2024-01-25" 0.20; q 105 "2024-01-25" 0;
   q 110 "2024-01-25" 0.22; q 95 "2024-02-01" 0.22; q 105 "2024-02-01" 0.19].

Definition labeled1 : list Labeled :=
  [mkLabeled (q 95 "2024-01-25" 0.25) ITM; mkLabeled (q 100 "2024-01-25" 0.20) ATM;
   mkLabeled (q 110 "2024-01-25" 0.22) OTM; mkLabeled (q 95 "2024-02-01" 0.22) ITM;
   mkLabeled (q 105 "2024-02-01" 0.19) OTM].

Definition curve1 : list SkewRow :=
  [mkSkewRow 95 ITM "2024-01-25" 0.25 (0.25 - 0.20) 0.20;
   mkSkewRow 100 ATM "2024-01-25" 0.20 (0.20 - 0.20) 0.20;
   mkSkewRow 110 OTM "2024-01-25" 0.22 (0.22 - 0.20) 0.20].

(** A baseline and the frame of the next cycle, spot price 100: the
    implied volatility at strike 110 moved by 0.08, that at the spot price
    did not move. *)
Definition baseline3 : list SkewRow :=
  [mkSkewRow 100 ATM "2024-01-25" 0.20 (0.20 - 0.20) 0.20;
   mkSkewRow 110 OTM "2024-01-25" 0.22 (0.22 - 0.20) 0.20].

Definition current3 : list SkewRow :=
  [mkSkewRow 100 ATM "2024-01-25" 0.20 (0.20 - 0.20) 0.20;
   mkSkewRow 110 OTM "2024-01-25" 0.30 (0.30 - 0.20) 0.20].

(** The scenario of the specification: the implied volatility at the spot
    price moved from 0.20 to 0.27. *)
Definition baseline4 : list SkewRow :=
  [mkSkewRow 100 ATM "2024-01-25" 0.20 0 0.20].

Definition current4 : list SkewRow :=
  [mkSkewRow 100 ATM "2024-01-25" 0.27 0 0.27].

(** A store that holds one fetched frame, at address 0. *)
Definition heap5 : heap :=
  [OFrame (mkFrame (Frame [q 95 "2024-02-01" 0.22; q 105 "2024-02-01" 0.19]) None)].

(** A store that holds the column-less frame of an empty chain, at
    address 0. *)
Definition heap_empty_chain : heap := [OFrame (mkFrame NoColumns None)].

(** The one expiry of the scenario of the specification: at a spot price
    of 105 no strike is at the spot price. *)
Definition chain2 : list Quote :=
  [q 95 "2024-02-01" 0.22; q 100 "2024-02-01" 0.19].

Definition labeled2 : list Labeled :=
  [mkLabeled (q 95 "2024-02-01" 0.22) ITM; mkLabeled (q 100 "2024-02-01" 0.19) ITM].

(** Two expiries that both have a quote at a spot price of 100, given out
    of order, and the frame computed from them. *)
Definition chain6 : list Quote :=
  [q 100 "2024-02-01" 0.19; q 95 "2024-01-25" 0.25; q 100 "2024-01-25" 0.20;
   q 95 "2024-02-01" 0.22].


Definition curve6 : list SkewRow :=
  [mkSkewRow 95 ITM "2024-01-25" 0.25 (0.25 - 0.20) 0.20;
   mkSkewRow 100 ATM "2024-01-25" 0.20 (0.20 - 0.20) 0.20;
   mkSkewRow 100 ATM "2024-02-01" 0.19 (0.19 - 0.19) 0.19;
   mkSkewRow 95 ITM "2024-02-01" 0.22 (0.22 - 0.19) 0.19].

(** Two cycles of one expiry at a spot price of 100: the implied
    volatility at the spot price moves from 0.10 to 0.20. *)
Definition chain7 : list Quote :=
  [q 100 "2024-01-25" 0.10; q 110 "2024-01-25" 0.15].

Definition curve7 : list SkewRow :=
  [mkSkewRow 100 ATM "2024-01-25" 0.10 (0.10 - 0.10) 0.10;
   mkSkewRow 110 OTM "2024-01-25" 0.15 (0.15 - 0.10) 0.10].

Definition chain8 : list Quote :=
  [q 100 "2024-01-25" 0.20; q 110 "2024-01-25" 0.30].

Definition curve8 : list SkewRow :=
  [mkSkewRow 100 ATM "2024-01-25" 0.20 (0.20 - 0.20) 0.20;
   mkSkewRow 110 OTM "2024-01-25" 0.30 (0.30 - 0.20) 0.20].

Definition change78 : ChangeRecord :=
  mkChange 100 "2024-01-25" (0.20 - 0.10) ((0.20 - 0.20) - (0.10 - 0.10)).



(** A frame that repeats a key. *)
Definition chain9 : list Quote :=
  [q 100 "2024-01-25" 0.20; q 100 "2024-01-25" 0.25; q 110 "2024-01-25" 0.30].

(** * Properties *)

(** ** Comparisons *)

Lemma Qltb_lt (x y : Q) : Qltb x y = true <-> x < y.
Proof.
  unfold Qltb. rewrite negb_true_iff. split; intro H.
  - apply Qnot_le_lt. intro Hle. apply Qle_bool_iff in Hle. congruence.
  - destruct (Qle_bool y x) eqn:E; [|reflexivity].
    apply Qle_bool_iff in E. exfalso. exact (Qlt_not_le _ _ H E).
Qed.

Lemma Qgtb_gt (x y : Q) : Qgtb x y = true <-> y < x.
Proof. unfold Qgtb. apply Qltb_lt. Qed.

Lemma iv_positive_spec (r : Quote) :
  iv_positive r = true <-> 0 < impliedVolatility r.
Proof. unfold iv_positive. apply Qgtb_gt. Qed.

Lemma Moneyness_eqb_eq (a b : Moneyness) : Moneyness_eqb a b = true <-> a = b.
Proof. destruct a, b; simpl; split; congruence. Qed.

(** ** The group keys *)

Lemma insert_key_In (k x : string) (ks : list string) :
  In x (insert_key k ks) <-> x = k \/ In x ks.
Proof.
  induction ks as [|k' ks IH]; simpl.
  - intuition.
  - destruct (String.compare k k') eqn:E; simpl.
    + apply String.compare_eq_iff in E. subst k'. intuition.
    + intuition.
    + rewrite IH. intuition.
Qed.

Lemma sorted_unique_In (x : string) (ks : list string) :
  In x (sorted_unique ks) <-> In x ks.
Proof.
  induction ks as [|k ks IH]; simpl.
  - reflexivity.
  - rewrite insert_key_In, IH. intuition.
Qed.

Lemma group_of_In (e : string) (df : list Labeled) (r : Labeled) :
  In r (group_of e df) <-> In r df /\ expiryDate r = e.
Proof.
  unfold group_of. rewrite filter_In, String.eqb_eq. reflexivity.
Qed.

Lemma groupby_In (df : list Labeled) (g : string * list Labeled) :
  In g (groupby_expiryDate df) <->
  (exists r, In r df /\ expiryDate r = fst g) /\ snd g = group_of (fst g) df.
Proof.
  unfold groupby_expiryDate. rewrite in_map_iff. split.
  - intros (e & <- & He). apply sorted_unique_In, in_map_iff in He.
    destruct He as (r & Hr & Hin). simpl. split; [exists r; auto | reflexivity].
  - intros ((r & Hin & Hr) & Hs). exists (fst g). split.
    + destruct g as [e rows]. simpl in *. congruence.
    + apply sorted_unique_In, in_map_iff. exists r. auto.
Qed.

(** ** The mean *)

Lemma mean_Some_nonempty (l : list Q) : l <> [] -> exists a, mean l = Some a.
Proof. destruct l; [congruence | intros _; eexists; reflexivity]. Qed.

Lemma mean_None (l : list Q) : mean l = None <-> l = [].
Proof. destruct l; simpl; split; congruence. Qed.

Lemma Qsum_total (l : list Q) : Qsum l = total l.
Proof. induction l as [|x l IH]; simpl; [reflexivity | f_equal; exact IH]. Qed.

(** [Series.mean()] is the arithmetic mean of the specification. *)
Lemma mean_arithmetic_mean (l : list Q) : mean l = arithmetic_mean l.
Proof.
  destruct l as [|x l]; [reflexivity|].
  unfold mean, arithmetic_mean. rewrite Qsum_total. reflexivity.
Qed.

(** ** [recent_trial.py]: classification *)

Example classify_chain1 :
  RecentTrial.classify_options (Frame chain1) 100 = Return labeled1.
Proof. reflexivity. Qed.

Example classify_chain2 :
  RecentTrial.classify_options (Frame chain2) 105 = Return labeled2.
Proof. reflexivity. Qed.

Lemma filter_all {A : Type} (f : A -> bool) (l : list A) :
  (forall x, In x l -> f x = true) -> filter f l = l.
Proof.
  induction l as [|x l IH]; intro H; simpl; [reflexivity|].
  rewrite (H x) by (simpl; auto). f_equal. apply IH. intros; apply H; simpl; auto.
Qed.

Lemma filter_none {A : Type} (f : A -> bool) (l : list A) :
  (forall x, In x l -> f x = false) -> filter f l = [].
Proof.
  induction l as [|x l IH]; intro H; simpl; [reflexivity|].
  rewrite (H x) by (simpl; auto). apply IH. intros; apply H; simpl; auto.
Qed.

Lemma RecentTrial_classify_rows (rows : list Quote) (spot_price : Q) :
  RecentTrial.classify_options (Frame rows) spot_price
  = Return (map (fun r => mkLabeled r (RecentTrial.label spot_price (strikePrice r)))
                (filter iv_positive rows)).
Proof.
  unfold RecentTrial.classify_options, add_moneyness, loc_set_moneyness.
  rewrite !map_map. f_equal. apply map_ext. intro a.
  unfold RecentTrial.label, relabel. cbn.
  destruct (Qeq_bool (strikePrice a) spot_price); cbn;
    destruct (Qltb (strikePrice a) spot_price); cbn;
    destruct (Qgtb (strikePrice a) spot_price); reflexivity.
Qed.

Lemma RecentTrial_label_rule (spot_price strike : Q) :
  (strike == spot_price -> RecentTrial.label spot_price strike = ATM) /\
  (strike < spot_price -> RecentTrial.label spot_price strike = ITM) /\
  (spot_price < strike -> RecentTrial.label spot_price strike = OTM).
Proof.
  unfold RecentTrial.label, relabel.
  destruct (Qgtb strike spot_price) eqn:G;
    [apply Qgtb_gt in G | assert (~ spot_price < strike) by (rewrite <- Qgtb_gt; congruence)];
  (destruct (Qltb strike spot_price) eqn:L;
    [apply Qltb_lt in L | assert (~ strike < spot_price) by (rewrite <- Qltb_lt; congruence)]);
  (destruct (Qeq_bool strike spot_price) eqn:E;
    [apply Qeq_bool_iff in E | assert (~ strike == spot_price) by (rewrite <- Qeq_bool_iff; congruence)]);
  repeat split; intros; try reflexivity; exfalso; try tauto; lra.
Qed.

Lemma RecentTrial_classified_In (snapshot : DataFrame Quote) (spot_price : Q)
    (df : list Labeled) (r : Labeled) :
  RecentTrial.classify_options snapshot spot_price = Return df ->
  In r df <->
  exists rows, snapshot = Frame rows /\ In (quote r) rows /\
               0 < impliedVolatility r /\
               moneyness r = RecentTrial.label spot_price (strikePrice r).
Proof.
  destruct snapshot as [|rows]; [discriminate|].
  rewrite RecentTrial_classify_rows. intros [= <-].
  rewrite in_map_iff. split.
  - intros (x & <- & Hx). apply filter_In in Hx. destruct Hx as [Hin Hv].
    exists rows. simpl. rewrite <- iv_positive_spec. auto.
  - intros (rows' & [= <-] & Hin & Hv & Hm). exists (quote r). split.
    + destruct r as [x m]. simpl in *. congruence.
    + apply filter_In. rewrite iv_positive_spec. auto.
Qed.

Lemma RecentTrial_classified_positive (snapshot : DataFrame Quote)
    (spot_price : Q) (df : list Labeled) :
  RecentTrial.classify_options snapshot spot_price = Return df ->
  filter (fun r : Labeled => iv_positive r) df = df.
Proof.
  intro H. apply filter_all. intros r Hr.
  apply (RecentTrial_classified_In _ _ _ r H) in Hr.
  destruct Hr as (_ & _ & _ & Hv & _). apply iv_positive_spec. exact Hv.
Qed.

(** ** [recent_trial.py]: the skew frame *)

(** The second expiry of [chain1] has no row in the frame; the ATM value
    returned beside the frame is that of the last group, here [NaN]. *)
Example skew_chain1 :
  RecentTrial.skew_of_snapshot (Frame chain1) 100 = Return (Some (curve1, None)).
Proof. reflexivity. Qed.

Lemma fold_skew_step (gs : list (string * list Labeled)) :
  forall (acc : list (list SkewRow)) (a : option Q),
    fst (fold_left RecentTrial.skew_step gs (acc, a))
    = acc ++ flat_map RecentTrial.emitted gs.
Proof.
  induction gs as [|[e g] gs IH]; intros acc a; simpl.
  - rewrite app_nil_r. reflexivity.
  - unfold RecentTrial.emitted at 1. simpl.
    destruct (mean (RecentTrial.atm_selection g)); rewrite IH; simpl.
    + rewrite <- app_assoc. reflexivity.
    + reflexivity.
Qed.

Lemma skew_rows_In (a : Q) (group : list Labeled) (r : SkewRow) :
  In r (RecentTrial.skew_rows a group) <->
  exists x, In x group /\ r = RecentTrial.skew_row a x.
Proof.
  unfold RecentTrial.skew_rows. rewrite in_map_iff.
  split; intros (x & H1 & H2); exists x; auto.
Qed.

Lemma skew_data_In (v : list Labeled) (r : SkewRow) :
  In r (List.concat (flat_map RecentTrial.emitted (groupby_expiryDate v))) <->
  exists x a, In x v /\
              mean (RecentTrial.atm_selection (group_of (expiryDate x) v)) = Some a /\
              r = RecentTrial.skew_row a x.
Proof.
  rewrite in_concat. split.
  - intros (l & Hl & Hr). apply in_flat_map in Hl. destruct Hl as (g & Hg & Hl).
    apply groupby_In in Hg. destruct Hg as [_ Hg].
    unfold RecentTrial.emitted in Hl. rewrite Hg in Hl.
    destruct (mean _) as [a|] eqn:Hm; [|contradiction].
    destruct Hl as [<-|[]]. apply skew_rows_In in Hr. destruct Hr as (x & Hx & ->).
    apply group_of_In in Hx. destruct Hx as [Hx He]. exists x, a.
    rewrite He. auto.
  - intros (x & a & Hx & Hm & ->).
    exists (RecentTrial.skew_rows a (group_of (expiryDate x) v)). split.
    + apply in_flat_map. exists (expiryDate x, group_of (expiryDate x) v). split.
      * apply groupby_In. simpl. split; [exists x; auto | reflexivity].
      * unfold RecentTrial.emitted. simpl. rewrite Hm. simpl. auto.
    + apply skew_rows_In. exists x. split; [|reflexivity].
      apply group_of_In. auto.
Qed.

(** The three outcomes of [calculate_volatility_skew]. *)
Lemma RecentTrial_calculate_cases (df : list Labeled) :
  let v := filter (fun r : Labeled => iv_positive r) df in
  let skew_data := flat_map RecentTrial.emitted (groupby_expiryDate v) in
  (v = [] /\ RecentTrial.calculate_volatility_skew df = Return None) \/
  (v <> [] /\ skew_data = [] /\
   RecentTrial.calculate_volatility_skew df = Raise ValueError) \/
  (v <> [] /\ skew_data <> [] /\
   exists atm_iv, RecentTrial.calculate_volatility_skew df
                  = Return (Some (List.concat skew_data, atm_iv))).
Proof.
  intros v skew_data. subst skew_data.
  unfold RecentTrial.calculate_volatility_skew.
  change (filter (fun r : Labeled => iv_positive r) df) with v. clearbody v.
  pose proof (fold_skew_step (groupby_expiryDate v) [] None) as Hf.
  destruct (fold_left RecentTrial.skew_step (groupby_expiryDate v) ([], None))
    as [sd a].
  simpl in Hf. subst sd.
  destruct v as [|x v']; [left; auto|]. right. cbn [empty].
  destruct (flat_map RecentTrial.emitted (groupby_expiryDate (x :: v'))) as [|l ls].
  - left. repeat split; congruence.
  - right. repeat split; try congruence. exists a. reflexivity.
Qed.

Lemma nonempty_In {A : Type} (l : list A) : l <> [] -> exists x, In x l.
Proof. destruct l as [|x l]; [congruence | intros _; exists x; simpl; auto]. Qed.

Lemma atm_selection_In (group : list Labeled) (iv : Q) :
  In iv (RecentTrial.atm_selection group) <->
  exists x, In x group /\ moneyness x = ATM /\ impliedVolatility x = iv.
Proof.
  unfold RecentTrial.atm_selection. rewrite in_map_iff. split.
  - intros (x & Hiv & Hx). apply filter_In in Hx. destruct Hx as [Hx Hm].
    apply Moneyness_eqb_eq in Hm. exists x. auto.
  - intros (x & Hx & Hm & Hiv). exists x. split; [exact Hiv|].
    apply filter_In. split; [exact Hx | apply Moneyness_eqb_eq; exact Hm].
Qed.

(** What [skew_of_snapshot] returns when it returns a frame. *)
Lemma RecentTrial_curve_rows (snapshot : DataFrame Quote) (spot_price : Q)
    (df : list Labeled) (curve : list SkewRow) (atm_iv : option Q) :
  RecentTrial.classify_options snapshot spot_price = Return df ->
  RecentTrial.skew_of_snapshot snapshot spot_price = Return (Some (curve, atm_iv)) ->
  forall r, In r curve <->
    exists x a, In x df /\
                mean (RecentTrial.atm_selection (group_of (expiryDate x) df)) = Some a /\
                r = RecentTrial.skew_row a x.
Proof.
  intros Hc Hs r. unfold RecentTrial.skew_of_snapshot in Hs. rewrite Hc in Hs.
  simpl in Hs. pose proof (RecentTrial_calculate_cases df) as Hcases.
  rewrite (RecentTrial_classified_positive _ _ _ Hc) in Hcases. simpl in Hcases.
  destruct Hcases as [[_ H]|[(_ & _ & H)|(_ & _ & a0 & H)]];
    rewrite H in Hs; try discriminate.
  injection Hs as <- _. apply skew_data_In.
Qed.

(** The reference of a group that has an ATM-labelled quote. *)
Lemma RecentTrial_group_reference (snapshot : DataFrame Quote) (spot_price : Q)
    (df : list Labeled) (e : string) :
  RecentTrial.classify_options snapshot spot_price = Return df ->
  RecentTrial.atm_selection (group_of e df) <> [] ->
  exists (curve : list SkewRow) (atm_iv : option Q) (a : Q),
    RecentTrial.skew_of_snapshot snapshot spot_price
    = Return (Some (curve, atm_iv)) /\
    mean (RecentTrial.atm_selection (group_of e df)) = Some a /\
    (forall x, In x (group_of e df) -> In (RecentTrial.skew_row a x) curve) /\
    (forall r, In r curve -> row_expiryDate r = e ->
               ATM_IV r = a /\
               skew r = row_impliedVolatility r - ATM_IV r).
Proof.
  intros Hc Hatm.
  destruct (mean_Some_nonempty _ Hatm) as [a Ha].
  destruct (nonempty_In _ Hatm) as [iv0 Hiv0].
  apply atm_selection_In in Hiv0. destruct Hiv0 as (x0 & Hx0 & _ & _).
  apply group_of_In in Hx0. destruct Hx0 as [Hx0 He0].
  assert (Hrow0 : In (RecentTrial.skew_row a x0)
            (List.concat (flat_map RecentTrial.emitted (groupby_expiryDate df)))).
  { apply skew_data_In. exists x0, a. rewrite He0. auto. }
  pose proof (RecentTrial_calculate_cases df) as Hcases.
  rewrite (RecentTrial_classified_positive _ _ _ Hc) in Hcases. simpl in Hcases.
  destruct Hcases as [[Hv _]|[(_ & Hsd & _)|(_ & _ & atm_iv & Hcalc)]].
  - subst df. contradiction.
  - rewrite Hsd in Hrow0. contradiction.
  - assert (Hs : RecentTrial.skew_of_snapshot snapshot spot_price
                 = Return (Some (List.concat (flat_map RecentTrial.emitted
                                   (groupby_expiryDate df)), atm_iv))).
    { unfold RecentTrial.skew_of_snapshot. rewrite Hc. exact Hcalc. }
    eexists _, atm_iv, a. split; [exact Hs|].
    split; [exact Ha|]. split.
    + intros x Hx. apply group_of_In in Hx. destruct Hx as [Hx He].
      apply skew_data_In. exists x, a. rewrite He. auto.
    + intros r Hr He. apply skew_data_In in Hr.
      destruct Hr as (x & a' & Hx & Hm & ->). simpl in He. rewrite He in Hm.
      assert (a' = a) by congruence. subst a'. split; reflexivity.
Qed.

(** ** The selection of line 68 against the specification *)

(** A strike is labelled ATM exactly when [==] holds of it and the spot
    price. *)
Lemma RecentTrial_label_atm_eqb (spot_price strike : Q) :
  Moneyness_eqb (RecentTrial.label spot_price strike) ATM
  = Qeq_bool strike spot_price.
Proof.
  unfold RecentTrial.label, relabel.
  destruct (Qgtb strike spot_price) eqn:G;
    destruct (Qltb strike spot_price) eqn:L;
    destruct (Qeq_bool strike spot_price) eqn:E; try reflexivity; exfalso;
    apply Qeq_bool_iff in E;
    try (apply Qgtb_gt in G); try (apply Qltb_lt in L); lra.
Qed.

(** The implied volatilities that line 68 selects in the group of an
    expiry are those of the ATM-classified quotes of that expiry, in
    snapshot order. *)
Lemma atm_selection_classified (rows : list Quote) (spot_price : Q) (e : string) :
  RecentTrial.atm_selection
    (group_of e
       (map (fun r => mkLabeled r (RecentTrial.label spot_price (strikePrice r)))
            (filter iv_positive rows)))
  = map impliedVolatility (atm_quotes_of_expiry spot_price e rows).
Proof.
  unfold RecentTrial.atm_selection, group_of, atm_quotes_of_expiry, quotes_at.
  induction rows as [|x rows IH]; [reflexivity|].
  cbn [filter]. unfold quoted_at at 1.
  change (iv_positive x) with (negb (Qle_bool (impliedVolatility x) 0)).
  destruct (negb (Qle_bool (impliedVolatility x) 0)); cbn [andb]; [|exact IH].
  cbn [map filter quote expiryDate].
  destruct (String.eqb (expiryDate x) e); cbn [filter moneyness].
  - rewrite RecentTrial_label_atm_eqb.
    destruct (Qeq_bool (strikePrice x) spot_price); cbn [andb map].
    + cbn [quote impliedVolatility]. f_equal. exact IH.
    + exact IH.
  - rewrite andb_false_r. exact IH.
Qed.

(** Every row of a returned frame, from the snapshot: it carries a quote
    with a positive implied volatility, the label of that quote's strike,
    the mean implied volatility of the ATM-classified quotes of its expiry
    as [ATM_IV], and the difference as [skew]. *)
Lemma RecentTrial_row_reference (rows : list Quote) (spot_price : Q)
    (curve : list SkewRow) (atm_iv : option Q) (r : SkewRow) :
  RecentTrial.skew_of_snapshot (Frame rows) spot_price
  = Return (Some (curve, atm_iv)) ->
  In r curve ->
  exists x : Quote,
    In x rows /\ 0 < impliedVolatility x /\
    row_strikePrice r = strikePrice x /\
    row_expiryDate r = expiryDate x /\
    row_impliedVolatility r = impliedVolatility x /\
    row_moneyness r = RecentTrial.label spot_price (strikePrice x) /\
    arithmetic_mean
      (map impliedVolatility (atm_quotes_of_expiry spot_price (row_expiryDate r) rows))
    = Some (ATM_IV r) /\
    skew r = row_impliedVolatility r - ATM_IV r.
Proof.
  intros Hs Hr.
  pose proof (RecentTrial_classify_rows rows spot_price) as Hc.
  apply (RecentTrial_curve_rows _ _ _ _ _ Hc Hs) in Hr.
  destruct Hr as (x' & a & Hx' & Hm & ->).
  rewrite atm_selection_classified, mean_arithmetic_mean in Hm.
  apply in_map_iff in Hx'. destruct Hx' as (x & <- & Hx).
  apply filter_In in Hx. destruct Hx as [Hin Hpos].
  apply iv_positive_spec in Hpos.
  exists x. cbn in *. repeat (split; [assumption || reflexivity|]). reflexivity.
Qed.

(** C1. For every snapshot of quotes and every spot price, when an expiry
    has an ATM-classified quote (a quote of that expiry with a positive
    implied volatility whose strike equals the spot price), the skew
    calculator of [recent_trial.py] returns a frame; the reference [a] of
    the expiry is the arithmetic mean of the implied volatilities of those
    quotes; every quote of the expiry with a positive implied volatility
    has its row in the frame, with [skew] its implied volatility minus [a]
    and [ATM_IV = a]; and every row of that expiry in the frame has
    [ATM_IV = a] and [skew = impliedVolatility - ATM_IV]. *)
Theorem C1_skew_relative_to_atm_mean :
  forall (snapshot : list Quote) (spot_price : Q) (e : string),
    atm_quotes_of_expiry spot_price e snapshot <> [] ->
    exists (curve : list SkewRow) (atm_iv : option Q) (a : Q),
      RecentTrial.skew_of_snapshot (Frame snapshot) spot_price
      = Return (Some (curve, atm_iv)) /\
      arithmetic_mean
        (map impliedVolatility (atm_quotes_of_expiry spot_price e snapshot))
      = Some a /\
      (forall x : Quote,
          In x snapshot -> 0 < impliedVolatility x -> expiryDate x = e ->
          exists m : Moneyness,
            In (mkSkewRow (strikePrice x) m e (impliedVolatility x)
                          (impliedVolatility x - a) a) curve) /\
      (forall r : SkewRow,
          In r curve -> row_expiryDate r = e ->
          ATM_IV r = a /\ skew r = row_impliedVolatility r - ATM_IV r).
Proof.
  intros snapshot spot_price e Hatm.
  pose proof (RecentTrial_classify_rows snapshot spot_price) as Hc.
  assert (Hsel : RecentTrial.atm_selection
                   (group_of e
                      (map (fun r => mkLabeled r
                                       (RecentTrial.label spot_price (strikePrice r)))
                           (filter iv_positive snapshot))) <> []).
  { rewrite atm_selection_classified. intro H. apply map_eq_nil in H.
    exact (Hatm H). }
  destruct (RecentTrial_group_reference _ _ _ e Hc Hsel)
    as (curve & atm_iv & a & Hs & Hm & Hrows & Hall).
  rewrite atm_selection_classified, mean_arithmetic_mean in Hm.
  exists curve, atm_iv, a. split; [exact Hs|]. split; [exact Hm|]. split.
  - intros x Hx Hpos He.
    exists (RecentTrial.label spot_price (strikePrice x)). rewrite <- He.
    apply (Hrows (mkLabeled x (RecentTrial.label spot_price (strikePrice x)))).
    apply group_of_In. split; [|exact He].
    apply (in_map (fun r => mkLabeled r (RecentTrial.label spot_price (strikePrice r)))).
    apply filter_In. split; [exact Hx | apply iv_positive_spec; exact Hpos].
  - exact Hall.
Qed.

Lemma C1_witness :
  exists (curve : list SkewRow) (atm_iv : option Q) (a : Q),
    RecentTrial.skew_of_snapshot (Frame chain1) 100 = Return (Some (curve, atm_iv)) /\
    arithmetic_mean
      (map impliedVolatility (atm_quotes_of_expiry 100 "2024-01-25" chain1))
    = Some a /\
    (forall x : Quote,
        In x chain1 -> 0 < impliedVolatility x ->
        expiryDate x = "2024-01-25"%string ->
        exists m : Moneyness,
          In (mkSkewRow (strikePrice x) m "2024-01-25" (impliedVolatility x)
                        (impliedVolatility x - a) a) curve) /\
    (forall r : SkewRow,
        In r curve -> row_expiryDate r = "2024-01-25"%string ->
        ATM_IV r = a /\ skew r = row_impliedVolatility r - ATM_IV r).
Proof.
  apply (C1_skew_relative_to_atm_mean chain1 100 "2024-01-25"%string).
  vm_compute. discriminate.
Defined.

(** ** Expiries without an ATM-classified quote *)





(** ** Quotes without a positive implied volatility *)

Lemma filter_idem {A : Type} (f : A -> bool) (l : list A) :
  filter f (filter f l) = filter f l.
Proof. apply filter_all. intros x Hx. apply filter_In in Hx. tauto. Qed.

(** C4. In [recent_trial.py] the quotes without a positive implied
    volatility have no part in the result: the result is that of the
    snapshot without them, and every row of a returned frame carries the
    strike, expiry and implied volatility of a quote of the snapshot whose
    implied volatility is positive.  In [app.py] the returned frame is a
    part of the snapshot with positive implied volatilities only. *)
Theorem C4_unquoted_never_emitted :
  forall (snapshot : list Quote) (spot_price : Q),
    RecentTrial.skew_of_snapshot (Frame snapshot) spot_price
    = RecentTrial.skew_of_snapshot (Frame (filter iv_positive snapshot)) spot_price /\
    (forall (curve : list SkewRow) (atm_iv : option Q) (r : SkewRow),
        RecentTrial.skew_of_snapshot (Frame snapshot) spot_price
        = Return (Some (curve, atm_iv)) ->
        In r curve ->
        0 < row_impliedVolatility r /\
        exists x, In x snapshot /\ 0 < impliedVolatility x /\
                  row_strikePrice r = strikePrice x /\
                  row_expiryDate r = expiryDate x /\
                  row_impliedVolatility r = impliedVolatility x) /\
    (forall (frame : list Quote) (r : Quote),
        App.calculate_volatility_skew (Frame snapshot) = Return frame ->
        In r frame -> 0 < impliedVolatility r /\ In r snapshot).
Proof.
  intros snapshot spot_price. split; [|split].
  - unfold RecentTrial.skew_of_snapshot.
    rewrite !RecentTrial_classify_rows, filter_idem. reflexivity.
  - intros curve atm_iv r Hs Hr.
    pose proof (RecentTrial_classify_rows snapshot spot_price) as Hc.
    apply (RecentTrial_curve_rows _ _ _ _ _ Hc Hs) in Hr.
    destruct Hr as (x & a & Hx & _ & ->).
    apply (RecentTrial_classified_In _ _ _ x Hc) in Hx.
    destruct Hx as (rows & [= <-] & Hin & Hpos & _). simpl.
    split; [exact Hpos|]. exists (quote x). auto.
  - intros frame r [= <-] Hr. apply filter_In in Hr.
    rewrite iv_positive_spec in Hr. tauto.
Qed.

Lemma C4_witness :
  (0 < row_impliedVolatility (mkSkewRow 110 OTM "2024-01-25" 0.22 (0.22 - 0.20) 0.20) /\
   exists x, In x chain1 /\ 0 < impliedVolatility x /\
             110 = strikePrice x /\ "2024-01-25"%string = expiryDate x /\
             0.22 = impliedVolatility x) /\
  (0 < impliedVolatility (q 110 "2024-01-25" 0.22) /\
   In (q 110 "2024-01-25" 0.22) chain1).
Proof.
  split.
  - apply (proj1 (proj2 (C4_unquoted_never_emitted chain1 100)) curve1 None
             (mkSkewRow 110 OTM "2024-01-25" 0.22 (0.22 - 0.20) 0.20)).
    + reflexivity.
    + simpl. auto.
  - apply (proj2 (proj2 (C4_unquoted_never_emitted chain1 100))
             (filter iv_positive chain1) (q 110 "2024-01-25" 0.22)).
    + reflexivity.
    + simpl. auto.
Defined.

(** ** Snapshots without a row to emit *)

Lemma RecentTrial_no_positive_quote (snapshot : list Quote) (spot_price : Q) :
  (forall x, In x snapshot -> impliedVolatility x <= 0) ->
  RecentTrial.skew_of_snapshot (Frame snapshot) spot_price = Return None.
Proof.
  intro H. unfold RecentTrial.skew_of_snapshot.
  rewrite RecentTrial_classify_rows.
  assert (Hf : filter iv_positive snapshot = []).
  { destruct (filter iv_positive snapshot) as [|x l] eqn:E; [reflexivity|].
    assert (Hx : In x (filter iv_positive snapshot)) by (rewrite E; simpl; auto).
    apply filter_In in Hx. destruct Hx as [Hin Hpos].
    apply iv_positive_spec in Hpos. specialize (H x Hin). lra. }
  rewrite Hf. reflexivity.
Qed.

Lemma RecentTrial_no_columns (spot_price : Q) :
  RecentTrial.skew_of_snapshot (to_frame []) spot_price = Raise KeyError.
Proof. reflexivity. Qed.

(** C9. In [recent_trial.py], a snapshot that has a quote with a positive
    implied volatility and no quote labelled ATM makes
    [calculate_volatility_skew] raise [ValueError] at [pd.concat]: no
    frame, empty or not, is returned. *)
Theorem C9_no_atm_quote_raises :
  forall (snapshot : DataFrame Quote) (spot_price : Q) (df : list Labeled),
    RecentTrial.classify_options snapshot spot_price = Return df ->
    df <> [] ->
    (forall r, In r df -> moneyness r <> ATM) ->
    RecentTrial.skew_of_snapshot snapshot spot_price = Raise ValueError.
Proof.
  intros snapshot spot_price df Hc Hne Hno.
  unfold RecentTrial.skew_of_snapshot. rewrite Hc. simpl.
  pose proof (RecentTrial_calculate_cases df) as Hcases.
  rewrite (RecentTrial_classified_positive _ _ _ Hc) in Hcases. simpl in Hcases.
  destruct Hcases as [[Hv _]|[(_ & _ & H)|(_ & Hsd & _)]].
  - contradiction.
  - exact H.
  - exfalso. destruct (nonempty_In _ Hsd) as [l Hl].
    apply in_flat_map in Hl. destruct Hl as (g & Hg & Hl).
    apply groupby_In in Hg. destruct Hg as [_ Hg].
    unfold RecentTrial.emitted in Hl.
    destruct (mean (RecentTrial.atm_selection (snd g))) as [a|] eqn:Hm;
      [|contradiction].
    destruct (RecentTrial.atm_selection (snd g)) as [|iv l'] eqn:Hsel;
      [discriminate|].
    assert (Hiv : In iv (RecentTrial.atm_selection (snd g)))
      by (rewrite Hsel; simpl; auto).
    apply atm_selection_In in Hiv. destruct Hiv as (x & Hx & Hatm & _).
    rewrite Hg in Hx. apply group_of_In in Hx. destruct Hx as [Hx _].
    exact (Hno x Hx Hatm).
Qed.

Lemma C9_witness :
  RecentTrial.skew_of_snapshot (Frame chain2) 105 = Raise ValueError.
Proof.
  apply (C9_no_atm_quote_raises (Frame chain2) 105 labeled2).
  - reflexivity.
  - discriminate.
  - intros r Hr. simpl in Hr. destruct Hr as [<-|[<-|[]]]; discriminate.
Defined.

(** ** [recent_trial.py]: drift *)

Lemma same_key_spec (c b : SkewRow) :
  RecentTrial.same_key c b = true <->
  row_strikePrice c == row_strikePrice b /\ row_expiryDate c = row_expiryDate b.
Proof.
  unfold RecentTrial.same_key.
  rewrite andb_true_iff, Qeq_bool_iff, String.eqb_eq. reflexivity.
Qed.

Lemma merge_In (current_skew baseline_skew : list SkewRow) (m : SkewRow * SkewRow) :
  In m (RecentTrial.merge current_skew baseline_skew) <->
  In (fst m) current_skew /\ In (snd m) baseline_skew /\
  RecentTrial.same_key (fst m) (snd m) = true.
Proof.
  unfold RecentTrial.merge. rewrite in_flat_map. split.
  - intros (c & Hc & Hm). apply in_map_iff in Hm. destruct Hm as (b & <- & Hb).
    apply filter_In in Hb. simpl. tauto.
  - intros (Hc & Hb & Hk). exists (fst m). split; [exact Hc|].
    apply in_map_iff. exists (snd m). split; [destruct m; reflexivity|].
    apply filter_In. auto.
Qed.

Lemma significant_spec (threshold : Q) (m : SkewRow * SkewRow) :
  RecentTrial.significant threshold m = true <->
  threshold < Qabs (RecentTrial.iv_delta m) \/
  threshold < Qabs (RecentTrial.skew_delta m).
Proof.
  unfold RecentTrial.significant. rewrite orb_true_iff, !Qgtb_gt. reflexivity.
Qed.

(** The records of a comparison of two frames, whichever way the result is
    returned. *)
Lemma RecentTrial_records (baseline_skew current_skew : list SkewRow)
    (threshold : Q) :
  RecentTrial.records
    (RecentTrial.compare_skews (Some baseline_skew) (Some current_skew) threshold)
  = map RecentTrial.change_of
      (filter (RecentTrial.significant threshold)
         (filter (fun m => Moneyness_eqb (row_moneyness (fst m)) ATM)
            (RecentTrial.merge current_skew baseline_skew))).
Proof.
  unfold RecentTrial.compare_skews.
  destruct (filter (RecentTrial.significant threshold) _); reflexivity.
Qed.

(** Which records a comparison of two frames has. *)
Lemma RecentTrial_records_In :
  forall (baseline_skew current_skew : list SkewRow) (threshold : Q)
         (rec : ChangeRecord),
    In rec (RecentTrial.records
              (RecentTrial.compare_skews (Some baseline_skew) (Some current_skew)
                 threshold)) <->
    exists c b : SkewRow,
      In c current_skew /\ In b baseline_skew /\
      row_strikePrice c == row_strikePrice b /\
      row_expiryDate c = row_expiryDate b /\
      row_moneyness c = ATM /\
      (threshold < Qabs (row_impliedVolatility c - row_impliedVolatility b) \/
       threshold < Qabs (skew c - skew b)) /\
      rec = mkChange (row_strikePrice c) (row_expiryDate c)
                     (row_impliedVolatility c - row_impliedVolatility b)
                     (skew c - skew b).
Proof.
  intros baseline_skew current_skew threshold rec.
  rewrite RecentTrial_records, in_map_iff. split.
  - intros ([c b] & <- & Hm). apply filter_In in Hm. destruct Hm as [Hm Hsig].
    apply filter_In in Hm. destruct Hm as [Hm Hatm].
    apply merge_In in Hm. destruct Hm as (Hc & Hb & Hk).
    apply same_key_spec in Hk. apply Moneyness_eqb_eq in Hatm.
    apply significant_spec in Hsig. exists c, b. simpl in *. tauto.
  - intros (c & b & Hc & Hb & Hs & He & Hatm & Hsig & ->). exists (c, b).
    split; [reflexivity|]. apply filter_In. split.
    + apply filter_In. split.
      * apply merge_In. simpl. rewrite same_key_spec. auto.
      * apply Moneyness_eqb_eq. exact Hatm.
    + apply significant_spec. exact Hsig.
Qed.

(** C2, as the code has it.  [compare_skews] of [recent_trial.py] emits a
    record exactly for the pairs of a current row and a baseline row that
    have the same strike and expiry, whose current row is labelled ATM, and
    whose change of implied volatility or of skew (current minus baseline)
    is above the threshold in absolute value.  A key of one frame only has
    no record. *)
Theorem C2_records_of_atm_keys :
  forall (baseline_skew current_skew : list SkewRow) (threshold : Q)
         (rec : ChangeRecord),
    In rec (RecentTrial.records
              (RecentTrial.compare_skews (Some baseline_skew) (Some current_skew)
                 threshold)) <->
    exists c b : SkewRow,
      In c current_skew /\ In b baseline_skew /\
      row_strikePrice c == row_strikePrice b /\
      row_expiryDate c = row_expiryDate b /\
      row_moneyness c = ATM /\
      (threshold < Qabs (row_impliedVolatility c - row_impliedVolatility b) \/
       threshold < Qabs (skew c - skew b)) /\
      rec = mkChange (row_strikePrice c) (row_expiryDate c)
                     (row_impliedVolatility c - row_impliedVolatility b)
                     (skew c - skew b).
Proof. exact RecentTrial_records_In. Qed.

(** C2 as the specification states it fails: at a threshold of 0.05 the
    implied volatility at strike 110 moved by 0.08 between [baseline3] and
    [current3], and no record is emitted, the row at that strike being
    OTM. *)
Lemma C2_counterexample :
  In (mkSkewRow 110 OTM "2024-01-25" 0.30 (0.30 - 0.20) 0.20) current3 /\
  In (mkSkewRow 110 OTM "2024-01-25" 0.22 (0.22 - 0.20) 0.20) baseline3 /\
  0.05 < Qabs (0.30 - 0.22) /\
  RecentTrial.compare_skews (Some baseline3) (Some current3) 0.05 = None /\
  ~ RecentTrial.drift_rule_all_keys baseline3 current3 0.05
      (RecentTrial.records
         (RecentTrial.compare_skews (Some baseline3) (Some current3) 0.05)).
Proof.
  split; [simpl; auto|]. split; [simpl; auto|]. split; [reflexivity|].
  split; [reflexivity|].
  intro H.
  specialize (H (mkSkewRow 110 OTM "2024-01-25" 0.30 (0.30 - 0.20) 0.20)
                (mkSkewRow 110 OTM "2024-01-25" 0.22 (0.22 - 0.20) 0.20)).
  assert (Hin : In (RecentTrial.change_of
                      (mkSkewRow 110 OTM "2024-01-25" 0.30 (0.30 - 0.20) 0.20,
                       mkSkewRow 110 OTM "2024-01-25" 0.22 (0.22 - 0.20) 0.20))
                   (RecentTrial.records
                      (RecentTrial.compare_skews (Some baseline3) (Some current3) 0.05))).
  { apply H.
    - simpl. auto.
    - simpl. auto.
    - reflexivity.
    - left. vm_compute. reflexivity. }
  vm_compute in Hin. exact Hin.
Qed.

(** The scenario of the specification, on a row at the spot price. *)
Example scenario_threshold_005 :
  RecentTrial.compare_skews (Some baseline4) (Some current4) 0.05
  = Some [mkChange 100 "2024-01-25" (0.27 - 0.20) (0 - 0)].
Proof. reflexivity. Qed.

Example scenario_threshold_010 :
  RecentTrial.compare_skews (Some baseline4) (Some current4) 0.10 = None.
Proof. reflexivity. Qed.

(** C6. Without a baseline [compare_skews] of [recent_trial.py] returns
    [None], the value it also returns when no change is significant: there
    is no record, and no exception.  In [app.py] the guard of [main] skips
    the comparison when a baseline is missing. *)
Theorem C6_absent_baseline_no_record :
  forall (current_skew : option (list SkewRow)) (threshold : Q),
    RecentTrial.compare_skews None current_skew threshold = None /\
    RecentTrial.records (RecentTrial.compare_skews None current_skew threshold) = [] /\
    (forall (baseline : option (list Quote)) (calls_data puts_data : list Quote),
        App.main_compare None baseline calls_data puts_data threshold = None /\
        App.main_compare baseline None calls_data puts_data threshold = None).
Proof.
  intros current_skew threshold. repeat split.
  destruct baseline; reflexivity.
Qed.

(** ** [app.py]: drift *)

Lemma App_compare_In (baseline_skew current_skew : list Quote) (threshold : Q)
    (ch : App.Change) :
  In ch (App.compare_frames baseline_skew current_skew threshold) <->
  exists (k : App.key) (current_iv baseline_iv : Q),
    In (k, current_iv) (App.dict_of current_skew) /\
    App.dict_get k (App.dict_of baseline_skew) = Some baseline_iv /\
    threshold < Qabs (current_iv - baseline_iv) /\
    ch = App.mkIvChange (fst k) (snd k) current_iv baseline_iv.
Proof.
  unfold App.compare_frames. rewrite in_flat_map. split.
  - intros ([k civ] & Hin & Hch).
    destruct (App.dict_get k (App.dict_of baseline_skew)) as [biv|] eqn:Hget;
      [|contradiction].
    destruct (Qgtb (Qabs (civ - biv)) threshold) eqn:Hgt; [|contradiction].
    destruct Hch as [<-|[]]. apply Qgtb_gt in Hgt. exists k, civ, biv. auto.
  - intros (k & civ & biv & Hin & Hget & Hgt & ->). exists (k, civ).
    split; [exact Hin|]. rewrite Hget.
    apply Qgtb_gt in Hgt. rewrite Hgt. simpl. auto.
Qed.

Example App_compare_chain :
  App.compare_frames [q 100 "2024-01-25" 0.20; q 110 "2024-01-25" 0.22]
                     [q 100 "2024-01-25" 0.20; q 110 "2024-01-25" 0.30; q 120 "2024-01-25" 0.40]
                     0.05
  = [App.mkIvChange 110 "2024-01-25" 0.30 0.22].
Proof. reflexivity. Qed.

(** ** The threshold *)

Section Threshold.

Variables t1 t2 : Q.
Hypothesis t1_below_t2 : t1 < t2.

Lemma significant_mono (m : SkewRow * SkewRow) :
  RecentTrial.significant t2 m = true -> RecentTrial.significant t1 m = true.
Proof.
  rewrite !significant_spec. intros [H|H]; [left|right]; lra.
Qed.

(** C8. For a baseline and a current frame, the records at a threshold
    [t2] are among the records at any smaller threshold [t1]; so for
    [compare_skews] of [recent_trial.py] and for that of [app.py]. *)
Theorem C8_threshold_monotone :
  (forall baseline_skew current_skew : option (list SkewRow),
      incl (RecentTrial.records
              (RecentTrial.compare_skews baseline_skew current_skew t2))
           (RecentTrial.records
              (RecentTrial.compare_skews baseline_skew current_skew t1))) /\
  (forall baseline_skew current_skew : list Quote,
      incl (App.compare_frames baseline_skew current_skew t2)
           (App.compare_frames baseline_skew current_skew t1)).
Proof.
  split.
  - intros [baseline_skew|] [current_skew|]; try (intros x []).
    rewrite !RecentTrial_records. intros rec Hrec.
    apply in_map_iff in Hrec. destruct Hrec as (m & <- & Hm).
    apply filter_In in Hm. destruct Hm as [Hm Hsig].
    apply in_map. apply filter_In. split; [exact Hm|].
    apply significant_mono. exact Hsig.
  - intros baseline_skew current_skew ch Hch. apply App_compare_In in Hch.
    apply App_compare_In.
    destruct Hch as (k & civ & biv & Hin & Hget & Hgt & Hch).
    exists k, civ, biv. repeat (split; [assumption|]). split; [lra | exact Hch].
Qed.

End Threshold.

Lemma C8_witness :
  0.05 < 0.10 /\
  incl (RecentTrial.records
          (RecentTrial.compare_skews (Some baseline4) (Some current4) 0.10))
       (RecentTrial.records
          (RecentTrial.compare_skews (Some baseline4) (Some current4) 0.05)) /\
  incl (App.compare_frames chain2 chain1 0.10) (App.compare_frames chain2 chain1 0.05).
Proof.
  assert (H : 0.05 < 0.10) by reflexivity.
  split; [exact H|]. split.
  - exact (proj1 (C8_threshold_monotone 0.05 0.10 H) (Some baseline4) (Some current4)).
  - exact (proj2 (C8_threshold_monotone 0.05 0.10 H) chain2 chain1).
Defined.

(** ** [latest.py]: classification *)

Lemma Latest_classify_rows (rows : list Quote) (spot_price : Q) :
  Latest.classify_options (Frame rows) spot_price
  = Return (map (fun r => mkLabeled r (Latest.label spot_price (strikePrice r))) rows).
Proof.
  unfold Latest.classify_options, add_moneyness, loc_set_moneyness.
  rewrite !map_map. f_equal. apply map_ext. intro a.
  unfold Latest.label, relabel. cbn.
  destruct (Qeq_bool (strikePrice a) spot_price); cbn;
    destruct (Qltb (strikePrice a) spot_price); cbn;
    destruct (Qgtb (strikePrice a) spot_price); reflexivity.
Qed.

Lemma Latest_label_rule (spot_price strike : Q) :
  (strike == spot_price -> Latest.label spot_price strike = ATM) /\
  (strike < spot_price -> Latest.label spot_price strike = ITM) /\
  (spot_price < strike -> Latest.label spot_price strike = ITM).
Proof.
  unfold Latest.label, relabel.
  destruct (Qgtb strike spot_price) eqn:G;
    [apply Qgtb_gt in G | assert (~ spot_price < strike) by (rewrite <- Qgtb_gt; congruence)];
  (destruct (Qltb strike spot_price) eqn:L;
    [apply Qltb_lt in L | assert (~ strike < spot_price) by (rewrite <- Qltb_lt; congruence)]);
  (destruct (Qeq_bool strike spot_price) eqn:E;
    [apply Qeq_bool_iff in E | assert (~ strike == spot_price) by (rewrite <- Qeq_bool_iff; congruence)]);
  repeat split; intros; try reflexivity; exfalso; try tauto; lra.
Qed.

(** A strike that is a number is at, below or above the spot price, and
    [latest.py] labels it ATM or ITM: no quote of this model is labelled
    OTM.  (A float64 strike that is [NaN] would keep the ['OTM'] of
    line 46.) *)
Lemma Latest_never_OTM (snapshot : DataFrame Quote) (spot_price : Q)
    (df : list Labeled) :
  Latest.classify_options snapshot spot_price = Return df ->
  forall r, In r df -> moneyness r <> OTM.
Proof.
  destruct snapshot as [|rows]; [discriminate|].
  rewrite Latest_classify_rows. intros [= <-] r Hr.
  apply in_map_iff in Hr. destruct Hr as (x & <- & _). simpl.
  destruct (Latest_label_rule spot_price (strikePrice x)) as (Ha & Hi & Ho).
  destruct (Q_dec (strikePrice x) spot_price) as [[Hlt|Hgt]|Heq].
  - rewrite (Hi Hlt). discriminate.
  - rewrite (Ho Hgt). discriminate.
  - rewrite (Ha Heq). discriminate.
Qed.

(** Line 62 of [latest.py] on a frame that has ITM and OTM rows and no ATM
    row: the reference that is returned is the default 0. *)
Example Latest_zero_default :
  Latest.calculate_volatility_skew
    [mkLabeled (q 95 "2024-02-01" 0.22) ITM; mkLabeled (q 105 "2024-02-01" 0.19) OTM]
  = Return (Some (Latest.mkSummary 0 0)).
Proof. reflexivity. Qed.

(** C5. One quote above the spot price: [classify_options] of [latest.py]
    labels it ITM, that of [recent_trial.py] labels it OTM. *)
Theorem C5_latest_labels_above_spot_ITM :
  Latest.classify_options (Frame [q 110 "2024-01-25" 0.22]) 100
  = Return [mkLabeled (q 110 "2024-01-25" 0.22) ITM] /\
  RecentTrial.classify_options (Frame [q 110 "2024-01-25" 0.22]) 100
  = Return [mkLabeled (q 110 "2024-01-25" 0.22) OTM].
Proof. split; reflexivity. Qed.

(** ** The store *)

Lemma unchanged_app (h new : heap) : unchanged h (h ++ new).
Proof.
  intros p o H. rewrite nth_error_app1; [exact H|].
  apply nth_error_Some. congruence.
Qed.

Lemma nth_error_alloc (h : heap) (o : object) :
  nth_error (h ++ [o]) (List.length h) = Some o.
Proof. rewrite nth_error_app2 by lia. rewrite Nat.sub_diag. reflexivity. Qed.

Lemma update_app_last (h : heap) (o o' : object) :
  update (List.length h) o' (h ++ [o]) = h ++ [o'].
Proof. induction h as [|x h IH]; simpl; [reflexivity | f_equal; exact IH]. Qed.

Lemma update_update (p : ref) (o1 o2 : object) (h : heap) :
  update p o2 (update p o1 h) = update p o2 h.
Proof.
  revert p. induction h as [|x h IH]; intros [|p]; simpl; try reflexivity.
  f_equal. apply IH.
Qed.

Lemma nth_error_update_eq (p : ref) (o o0 : object) (h : heap) :
  nth_error h p = Some o0 -> nth_error (update p o h) p = Some o.
Proof.
  revert p. induction h as [|x h IH]; intros [|p]; simpl; try discriminate.
  - reflexivity.
  - apply IH.
Qed.

Lemma nth_error_update_neq (p p' : ref) (o : object) (h : heap) :
  p <> p' -> nth_error (update p o h) p' = nth_error h p'.
Proof.
  revert p p'. induction h as [|x h IH]; intros [|p] [|p'] Hne; simpl;
    try reflexivity; try congruence.
  apply IH. congruence.
Qed.

Lemma mbind_Return {A B : Type} (m : M A) (k : A -> M B) (h h' : heap) (a : A) :
  m h = (Return a, h') -> mbind m k h = k a h'.
Proof. intro H. unfold mbind. rewrite H. reflexivity. Qed.

Lemma mbind_Raise {A B : Type} (m : M A) (k : A -> M B) (h h' : heap) (e : exn) :
  m h = (Raise e, h') -> mbind m k h = (Raise e, h').
Proof. intro H. unfold mbind. rewrite H. reflexivity. Qed.

Lemma get_frame_run (h : heap) (p : ref) (f : frame) :
  nth_error h p = Some (OFrame f) -> get_frame p h = (Return f, h).
Proof. intro H. unfold get_frame. rewrite H. reflexivity. Qed.

Lemma get_frame_fail (h : heap) (p : ref) :
  (forall f, nth_error h p <> Some (OFrame f)) ->
  get_frame p h = (Raise AttributeError, h).
Proof.
  intro H. unfold get_frame. destruct (nth_error h p) as [[f|rows]|]; try reflexivity.
  exfalso. exact (H f eq_refl).
Qed.

Lemma setitem_run (h : heap) (p : ref) (f : frame) (v : Moneyness) :
  nth_error h p = Some (OFrame f) ->
  setitem_moneyness p v h
  = (Return tt, update p (OFrame (mkFrame (quotes f) (Some (repeat v (nrows f))))) h).
Proof.
  intro H. unfold setitem_moneyness.
  rewrite (mbind_Return _ _ _ _ _ (get_frame_run _ _ _ H)). reflexivity.
Qed.

Lemma loc_setitem_run (h : heap) (p : ref) (rows : list Quote)
    (col : list Moneyness) (mask : Quote -> bool) (v : Moneyness) :
  nth_error h p = Some (OFrame (mkFrame (Frame rows) (Some col))) ->
  loc_setitem_moneyness p mask v h
  = (Return tt,
     update p (OFrame (mkFrame (Frame rows)
                 (Some (map (fun qm : Quote * Moneyness =>
                               if mask (fst qm) then v else snd qm)
                            (combine rows col))))) h).
Proof.
  intro H. unfold loc_setitem_moneyness.
  rewrite (mbind_Return _ _ _ _ _ (get_frame_run _ _ _ H)). reflexivity.
Qed.

Lemma loc_setitem_no_columns (h : heap) (p : ref) (f : frame)
    (mask : Quote -> bool) (v : Moneyness) :
  nth_error h p = Some (OFrame f) -> quotes f = NoColumns ->
  loc_setitem_moneyness p mask v h = (Raise KeyError, h).
Proof.
  intros H Hq. unfold loc_setitem_moneyness.
  rewrite (mbind_Return _ _ _ _ _ (get_frame_run _ _ _ H)). rewrite Hq. reflexivity.
Qed.

(** ** Columns *)

Lemma combine_map_self {A B : Type} (g : A -> B) (l : list A) :
  combine l (map g l) = map (fun x => (x, g x)) l.
Proof. induction l as [|x l IH]; simpl; [reflexivity | f_equal; exact IH]. Qed.

Lemma repeat_map {A B : Type} (v : B) (l : list A) :
  repeat v (List.length l) = map (fun _ => v) l.
Proof. induction l as [|x l IH]; simpl; [reflexivity | f_equal; exact IH]. Qed.

Lemma relabel_column (rows : list Quote) (g : Quote -> Moneyness)
    (mask : Quote -> bool) (v : Moneyness) :
  map (fun qm : Quote * Moneyness => if mask (fst qm) then v else snd qm)
      (combine rows (map g rows))
  = map (fun x => relabel (mask x) v (g x)) rows.
Proof. rewrite combine_map_self, map_map. reflexivity. Qed.

Lemma frame_of_labels (rows : list Quote) (g : Quote -> Moneyness) :
  frame_of (map (fun r => mkLabeled r (g r)) rows)
  = mkFrame (Frame rows) (Some (map g rows)).
Proof.
  unfold frame_of. rewrite !map_map. simpl. rewrite map_id. reflexivity.
Qed.

Lemma labeled_rows_frame_of (rows : list Labeled) :
  labeled_rows (frame_of rows) = Return rows.
Proof.
  unfold labeled_rows, frame_of. simpl. f_equal.
  induction rows as [|[x m] rows IH]; simpl; [reflexivity | f_equal; exact IH].
Qed.

(** ** Classification and skew on frame objects *)

Lemma getitem_mask_run (h : heap) (p : ref) (f : frame) (rows : list Quote)
    (mask : Quote -> bool) :
  nth_error h p = Some (OFrame f) -> quotes f = Frame rows ->
  getitem_mask p mask h
  = (Return (List.length h),
     h ++ [OFrame (mkFrame (Frame (filter mask rows))
                     (option_map (select mask rows) (moneyness_column f)))]).
Proof.
  intros H Hq. unfold getitem_mask.
  rewrite (mbind_Return _ _ _ _ _ (get_frame_run _ _ _ H)). rewrite Hq. reflexivity.
Qed.

Lemma setitem_last (h : heap) (rows : list Quote) (col : option (list Moneyness))
    (v : Moneyness) :
  setitem_moneyness (List.length h) v (h ++ [OFrame (mkFrame (Frame rows) col)])
  = (Return tt, h ++ [OFrame (mkFrame (Frame rows) (Some (map (fun _ => v) rows)))]).
Proof.
  rewrite (setitem_run _ _ _ _ (nth_error_alloc _ _)), update_app_last.
  unfold nrows. simpl. rewrite repeat_map. reflexivity.
Qed.

Lemma loc_setitem_last (h : heap) (rows : list Quote) (g : Quote -> Moneyness)
    (mask : Quote -> bool) (v : Moneyness) :
  loc_setitem_moneyness (List.length h) mask v
    (h ++ [OFrame (mkFrame (Frame rows) (Some (map g rows)))])
  = (Return tt,
     h ++ [OFrame (mkFrame (Frame rows)
                     (Some (map (fun x => relabel (mask x) v (g x)) rows)))]).
Proof.
  rewrite (loc_setitem_run _ _ _ _ _ _ (nth_error_alloc _ _)), update_app_last.
  rewrite relabel_column. reflexivity.
Qed.

(** On frame objects [classify_options] of [recent_trial.py] computes what
    the function on rows computes, in a new object. *)
Lemma RecentTrial_heap_classify_run (h : heap) (p : ref) (f : frame)
    (rows : list Quote) (spot_price : Q) (df : list Labeled) :
  nth_error h p = Some (OFrame f) -> quotes f = Frame rows ->
  RecentTrial.classify_options (Frame rows) spot_price = Return df ->
  RecentTrial.Heap.classify_options p spot_price h
  = (Return (List.length h), h ++ [OFrame (frame_of df)]).
Proof.
  intros H Hq Hc. rewrite RecentTrial_classify_rows in Hc. injection Hc as <-.
  rewrite frame_of_labels. unfold RecentTrial.Heap.classify_options.
  rewrite (mbind_Return _ _ _ _ _ (getitem_mask_run _ _ _ _ _ H Hq)).
  rewrite (mbind_Return _ _ _ _ _ (setitem_last _ _ _ _)).
  rewrite (mbind_Return _ _ _ _ _ (loc_setitem_last _ _ _ _ _)).
  rewrite (mbind_Return _ _ _ _ _ (loc_setitem_last _ _ _ _ _)).
  rewrite (mbind_Return _ _ _ _ _ (loc_setitem_last _ _ _ _ _)).
  reflexivity.
Qed.

Lemma RecentTrial_heap_classify_cases (h : heap) (p : ref) (spot_price : Q) :
  (exists e, RecentTrial.Heap.classify_options p spot_price h = (Raise e, h)) \/
  (exists f o, nth_error h p = Some (OFrame f) /\
               RecentTrial.Heap.classify_options p spot_price h
               = (Return (List.length h), h ++ [o])).
Proof.
  destruct (nth_error h p) as [[f|rows]|] eqn:Hp.
  - destruct (quotes f) as [|rows] eqn:Hq.
    + left. exists KeyError. unfold RecentTrial.Heap.classify_options, getitem_mask.
      apply mbind_Raise.
      rewrite (mbind_Return _ _ _ _ _ (get_frame_run _ _ _ Hp)). rewrite Hq.
      reflexivity.
    + right. exists f. eexists. split; [reflexivity|].
      eapply (RecentTrial_heap_classify_run h p f rows spot_price); eauto.
      apply RecentTrial_classify_rows.
  - left. exists AttributeError.
    unfold RecentTrial.Heap.classify_options, getitem_mask.
    apply mbind_Raise, mbind_Raise, get_frame_fail. intros f. congruence.
  - left. exists AttributeError.
    unfold RecentTrial.Heap.classify_options, getitem_mask.
    apply mbind_Raise, mbind_Raise, get_frame_fail. intros f. congruence.
Qed.

Lemma setitem_at (h : heap) (p : ref) (f : frame) (rows : list Quote)
    (v : Moneyness) :
  nth_error h p = Some (OFrame f) -> quotes f = Frame rows ->
  setitem_moneyness p v h
  = (Return tt,
     update p (OFrame (mkFrame (Frame rows) (Some (map (fun _ => v) rows)))) h).
Proof.
  intros H Hq. rewrite (setitem_run _ _ _ _ H). unfold nrows.
  rewrite Hq, repeat_map. reflexivity.
Qed.

Lemma loc_setitem_at (h : heap) (p : ref) (o0 : object) (rows : list Quote)
    (g : Quote -> Moneyness) (mask : Quote -> bool) (v : Moneyness) :
  nth_error h p = Some o0 ->
  loc_setitem_moneyness p mask v
    (update p (OFrame (mkFrame (Frame rows) (Some (map g rows)))) h)
  = (Return tt,
     update p (OFrame (mkFrame (Frame rows)
                 (Some (map (fun x => relabel (mask x) v (g x)) rows)))) h).
Proof.
  intro H.
  rewrite (loc_setitem_run _ _ _ _ _ _ (nth_error_update_eq _ _ _ _ H)).
  rewrite update_update, relabel_column. reflexivity.
Qed.

(** On frame objects [classify_options] of [latest.py] computes what the
    function on rows computes, in the object it was given. *)
Lemma Latest_heap_classify_run (h : heap) (p : ref) (f : frame)
    (rows : list Quote) (spot_price : Q) (df : list Labeled) :
  nth_error h p = Some (OFrame f) -> quotes f = Frame rows ->
  Latest.classify_options (Frame rows) spot_price = Return df ->
  Latest.Heap.classify_options p spot_price h
  = (Return p, update p (OFrame (frame_of df)) h).
Proof.
  intros H Hq Hc. rewrite Latest_classify_rows in Hc. injection Hc as <-.
  rewrite frame_of_labels. unfold Latest.Heap.classify_options.
  rewrite (mbind_Return _ _ _ _ _ (setitem_at _ _ _ _ _ H Hq)).
  rewrite (mbind_Return _ _ _ _ _ (loc_setitem_at _ _ _ _ _ _ _ H)).
  rewrite (mbind_Return _ _ _ _ _ (loc_setitem_at _ _ _ _ _ _ _ H)).
  rewrite (mbind_Return _ _ _ _ _ (loc_setitem_at _ _ _ _ _ _ _ H)).
  reflexivity.
Qed.

Ltac run_cases H :=
  cbv beta iota in H;
  repeat match type of H with
         | context [match ?x with _ => _ end] =>
             lazymatch x with
             | context [match _ with _ => _ end] => fail
             | _ => destruct x; cbv beta iota in H
             end
         end;
  injection H as <- <-.

Lemma RecentTrial_heap_calculate_extends (h h' : heap) (p : ref)
    (r : result (option (ref * option Q))) :
  RecentTrial.Heap.calculate_volatility_skew p h = (r, h') ->
  exists new, h' = h ++ new.
Proof.
  unfold RecentTrial.Heap.calculate_volatility_skew, getitem_mask, mbind,
    get_frame, lift, alloc, ret, raise.
  intro H. run_cases H;
    solve [ exists []; symmetry; apply app_nil_r
          | eexists; reflexivity
          | eexists; rewrite <- app_assoc; reflexivity ].
Qed.

Lemma Latest_heap_calculate_extends (h h' : heap) (p : ref)
    (r : result (option Latest.Summary)) :
  Latest.Heap.calculate_volatility_skew p h = (r, h') ->
  exists new, h' = h ++ new.
Proof.
  unfold Latest.Heap.calculate_volatility_skew, getitem_mask, mbind,
    get_frame, lift, alloc, ret, raise.
  intro H. run_cases H;
    solve [ exists []; symmetry; apply app_nil_r | eexists; reflexivity ].
Qed.

(** [df[mask]] on the frame object of labelled rows. *)
Lemma select_frame_of (mask : Quote -> bool) (rows : list Labeled) :
  mkFrame (Frame (filter mask (map quote rows)))
          (Some (select mask (map quote rows) (map moneyness rows)))
  = frame_of (filter (fun r : Labeled => mask r) rows).
Proof.
  unfold frame_of, select. f_equal.
  - f_equal. induction rows as [|[x m] rows IH]; simpl; [reflexivity|].
    destruct (mask x); simpl; [f_equal|]; exact IH.
  - f_equal. induction rows as [|[x m] rows IH]; simpl; [reflexivity|].
    destruct (mask x); simpl; [f_equal|]; exact IH.
Qed.

(** Both calculators return before they look for the ['moneyness']
    column when no quote has a positive implied volatility: on a fetched
    frame that was never classified the result is [None], not [KeyError]. *)
Lemma heap_calculate_unclassified (h : heap) (p : ref) (f : frame)
    (rows : list Quote) :
  nth_error h p = Some (OFrame f) -> quotes f = Frame rows ->
  filter iv_positive rows = [] ->
  fst (RecentTrial.Heap.calculate_volatility_skew p h) = Return None /\
  fst (Latest.Heap.calculate_volatility_skew p h) = Return None.
Proof.
  intros H Hq Hf.
  unfold RecentTrial.Heap.calculate_volatility_skew,
    Latest.Heap.calculate_volatility_skew.
  rewrite !(mbind_Return _ _ _ _ _ (getitem_mask_run _ _ _ _ _ H Hq)).
  rewrite !(mbind_Return _ _ _ _ _ (get_frame_run _ _ _ (nth_error_alloc _ _))).
  unfold nrows. simpl. rewrite Hf. split; reflexivity.
Qed.

(** The skew frame is a new object that holds what the function on rows
    returns. *)
Lemma RecentTrial_heap_calculate_run (h : heap) (p : ref) (rows : list Labeled)
    (curve : list SkewRow) (atm_iv : option Q) :
  nth_error h p = Some (OFrame (frame_of rows)) ->
  RecentTrial.calculate_volatility_skew rows = Return (Some (curve, atm_iv)) ->
  RecentTrial.Heap.calculate_volatility_skew p h
  = (Return (Some (S (List.length h), atm_iv)),
     h ++ [OFrame (frame_of (filter (fun r : Labeled => iv_positive r) rows));
           OCurve curve]).
Proof.
  intros H Hc. unfold RecentTrial.Heap.calculate_volatility_skew.
  rewrite (mbind_Return _ _ _ _ _
             (getitem_mask_run _ _ _ (map quote rows) iv_positive H eq_refl)).
  cbn [frame_of moneyness_column option_map]. rewrite select_frame_of.
  rewrite (mbind_Return _ _ _ _ _ (get_frame_run _ _ _ (nth_error_alloc _ _))).
  assert (Hcalc : RecentTrial.calculate_volatility_skew
                    (filter (fun r : Labeled => iv_positive r) rows)
                  = Return (Some (curve, atm_iv))).
  { unfold RecentTrial.calculate_volatility_skew in *.
    rewrite filter_idem. exact Hc. }
  assert (Hne : filter (fun r : Labeled => iv_positive r) rows <> []).
  { intro He. unfold RecentTrial.calculate_volatility_skew in Hc.
    rewrite He in Hc. discriminate. }
  unfold nrows, frame_of at 1. cbn [quotes]. rewrite length_map.
  destruct (filter (fun r : Labeled => iv_positive r) rows) as [|x v] eqn:Hv;
    [congruence|].
  cbn [List.length Nat.eqb].
  unfold mbind, lift, alloc, ret. rewrite labeled_rows_frame_of, Hcalc.
  rewrite length_app, <- app_assoc. simpl. rewrite Nat.add_1_r. reflexivity.
Qed.

(** On the column-less frame of an empty chain line 46 of [latest.py]
    creates an empty ['moneyness'] column in the frame it was given, and
    line 47 raises [KeyError] on ['strikePrice']. *)
Lemma Latest_heap_classify_no_columns (h : heap) (p : ref) (f : frame)
    (spot_price : Q) :
  nth_error h p = Some (OFrame f) -> quotes f = NoColumns ->
  Latest.Heap.classify_options p spot_price h
  = (Raise KeyError, update p (OFrame (mkFrame NoColumns (Some []))) h).
Proof.
  intros H Hq. unfold Latest.Heap.classify_options.
  rewrite (mbind_Return _ _ _ _ _ (setitem_run _ _ _ _ H)).
  unfold nrows. rewrite Hq. cbn [repeat].
  apply mbind_Raise.
  apply (loc_setitem_no_columns _ _ (mkFrame NoColumns (Some []))).
  - exact (nth_error_update_eq _ _ _ _ H).
  - reflexivity.
Qed.

(** C10, as the code has it.  On frame objects: [classify_options] of
    [recent_trial.py] leaves the frame it is given, and every other object,
    as it was, and returns a new object; [calculate_volatility_skew] of
    [recent_trial.py] and of [latest.py] leave every object as it was;
    [classify_options] of [latest.py] returns the frame it was given, with
    the same quotes in the same order and the ['moneyness'] column written
    into it, and leaves the other objects as they were; on the column-less
    frame of an empty chain it writes an empty ['moneyness'] column into
    the frame it was given, raises [KeyError] and leaves the other objects
    as they were. *)
Theorem C10_frames_after_classification :
  leaves_input_unchanged RecentTrial.Heap.classify_options /\
  (forall (h h' : heap) (p : ref) (spot_price : Q) (r : result ref),
      RecentTrial.Heap.classify_options p spot_price h = (r, h') ->
      unchanged h h') /\
  (forall (h h' : heap) (p : ref) (r : result (option (ref * option Q))),
      RecentTrial.Heap.calculate_volatility_skew p h = (r, h') ->
      unchanged h h') /\
  (forall (h h' : heap) (p : ref) (r : result (option Latest.Summary)),
      Latest.Heap.calculate_volatility_skew p h = (r, h') ->
      unchanged h h') /\
  (forall (h : heap) (p : ref) (f : frame) (rows : list Quote) (spot_price : Q),
      nth_error h p = Some (OFrame f) ->
      quotes f = Frame rows ->
      exists h' : heap,
        Latest.Heap.classify_options p spot_price h = (Return p, h') /\
        nth_error h' p
        = Some (OFrame (mkFrame (Frame rows)
                  (Some (map (fun x => Latest.label spot_price (strikePrice x)) rows)))) /\
        (forall p', p' <> p -> nth_error h' p' = nth_error h p')) /\
  (forall (h : heap) (p : ref) (f : frame) (spot_price : Q),
      nth_error h p = Some (OFrame f) ->
      quotes f = NoColumns ->
      exists h' : heap,
        Latest.Heap.classify_options p spot_price h = (Raise KeyError, h') /\
        nth_error h' p = Some (OFrame (mkFrame NoColumns (Some []))) /\
        (forall p', p' <> p -> nth_error h' p' = nth_error h p')).
Proof.
  split; [|split; [|split; [|split; [|split]]]].
  - intros h h' p spot_price r H.
    destruct (RecentTrial_heap_classify_cases h p spot_price)
      as [[e He]|(f & o & Hp & Ho)]; rewrite H in *.
    + injection He as -> ->. split; [reflexivity | discriminate].
    + injection Ho as -> ->. split.
      * rewrite Hp. apply unchanged_app. exact Hp.
      * intros [= Heq]. assert (Hlt : (p < List.length h)%nat)
          by (apply nth_error_Some; congruence). lia.
  - intros h h' p spot_price r H.
    destruct (RecentTrial_heap_classify_cases h p spot_price)
      as [[e He]|(f & o & Hp & Ho)]; rewrite H in *.
    + injection He as -> ->. intros a x Ha. exact Ha.
    + injection Ho as -> ->. apply unchanged_app.
  - intros h h' p r H.
    destruct (RecentTrial_heap_calculate_extends _ _ _ _ H) as [new ->].
    apply unchanged_app.
  - intros h h' p r H.
    destruct (Latest_heap_calculate_extends _ _ _ _ H) as [new ->].
    apply unchanged_app.
  - intros h p f rows spot_price Hp Hq. eexists. split; [|split].
    + eapply (Latest_heap_classify_run h p f rows spot_price); eauto.
      apply Latest_classify_rows.
    + rewrite frame_of_labels. apply (nth_error_update_eq _ _ _ _ Hp).
    + intros p' Hne. apply nth_error_update_neq. congruence.
  - intros h p f spot_price Hp Hq. eexists. split; [|split].
    + exact (Latest_heap_classify_no_columns h p f spot_price Hp Hq).
    + apply (nth_error_update_eq _ _ _ _ Hp).
    + intros p' Hne. apply nth_error_update_neq. congruence.
Qed.

Lemma C10_witness :
  (exists h' : heap,
     Latest.Heap.classify_options 0%nat 100 heap5 = (Return 0%nat, h') /\
     nth_error h' 0%nat
     = Some (OFrame (mkFrame (Frame [q 95 "2024-02-01" 0.22; q 105 "2024-02-01" 0.19])
               (Some (map (fun x => Latest.label 100 (strikePrice x))
                        [q 95 "2024-02-01" 0.22; q 105 "2024-02-01" 0.19])))) /\
     (forall p', p' <> 0%nat -> nth_error h' p' = nth_error heap5 p')) /\
  (nth_error (snd (RecentTrial.Heap.classify_options 0%nat 100 heap5)) 0%nat
   = nth_error heap5 0%nat /\
   fst (RecentTrial.Heap.classify_options 0%nat 100 heap5) <> Return 0%nat) /\
  unchanged heap5 (snd (RecentTrial.Heap.classify_options 0%nat 100 heap5)) /\
  unchanged (snd (RecentTrial.Heap.classify_options 0%nat 100 heap5))
    (snd (RecentTrial.Heap.calculate_volatility_skew 1%nat
            (snd (RecentTrial.Heap.classify_options 0%nat 100 heap5)))) /\
  unchanged (snd (Latest.Heap.classify_options 0%nat 100 heap5))
    (snd (Latest.Heap.calculate_volatility_skew 0%nat
            (snd (Latest.Heap.classify_options 0%nat 100 heap5)))) /\
  (exists h' : heap,
     Latest.Heap.classify_options 0%nat 100 heap_empty_chain = (Raise KeyError, h') /\
     nth_error h' 0%nat = Some (OFrame (mkFrame NoColumns (Some []))) /\
     (forall p', p' <> 0%nat -> nth_error h' p' = nth_error heap_empty_chain p')).
Proof.
  split; [|split; [|split; [|split; [|split]]]].
  - apply (proj1 (proj2 (proj2 (proj2 (proj2 C10_frames_after_classification))))
             heap5 0%nat
             (mkFrame (Frame [q 95 "2024-02-01" 0.22; q 105 "2024-02-01" 0.19]) None)).
    + reflexivity.
    + reflexivity.
  - apply (proj1 C10_frames_after_classification heap5 _ 0%nat 100).
    reflexivity.
  - apply (proj1 (proj2 C10_frames_after_classification) heap5 _ 0%nat 100
             (fst (RecentTrial.Heap.classify_options 0%nat 100 heap5))).
    reflexivity.
  - apply (proj1 (proj2 (proj2 C10_frames_after_classification)) _ _ 1%nat
             (fst (RecentTrial.Heap.calculate_volatility_skew 1%nat
                     (snd (RecentTrial.Heap.classify_options 0%nat 100 heap5))))).
    reflexivity.
  - apply (proj1 (proj2 (proj2 (proj2 C10_frames_after_classification))) _ _ 0%nat
             (fst (Latest.Heap.calculate_volatility_skew 0%nat
                     (snd (Latest.Heap.classify_options 0%nat 100 heap5))))).
    reflexivity.
  - apply (proj2 (proj2 (proj2 (proj2 (proj2 C10_frames_after_classification))))
             heap_empty_chain 0%nat (mkFrame NoColumns None)).
    + reflexivity.
    + reflexivity.
Defined.

(** C10 as the specification states it fails for [classify_options] of
    [latest.py]: on the store [heap5] it returns address 0, the address it
    was given, and the frame there has got a column. *)
Lemma C10_counterexample :
  fst (Latest.Heap.classify_options 0%nat 100 heap5) = Return 0%nat /\
  nth_error (snd (Latest.Heap.classify_options 0%nat 100 heap5)) 0%nat
  = Some (OFrame (mkFrame (Frame [q 95 "2024-02-01" 0.22; q 105 "2024-02-01" 0.19])
            (Some [ITM; ITM]))) /\
  nth_error (snd (Latest.Heap.classify_options 0%nat 100 heap5)) 0%nat
  <> nth_error heap5 0%nat /\
  ~ leaves_input_unchanged Latest.Heap.classify_options.
Proof.
  split; [reflexivity|]. split; [reflexivity|]. split; [discriminate|].
  intro H.
  destruct (Latest.Heap.classify_options 0%nat 100 heap5) as [r h'] eqn:E.
  destruct (H _ _ _ _ _ E) as [_ Hr].
  vm_compute in E. injection E as <- <-. apply Hr. reflexivity.
Qed.

(** ** The baseline files *)













(** The file that [to_csv] writes for [curve1]. *)
Example to_csv_curve1 :
  RecentTrialFiles.to_csv curve1
  = mkCsv ["strikePrice"; "moneyness"; "expiryDate"; "impliedVolatility"; "skew";
           "ATM_IV"]%string
          [[Number 95; Text "ITM"; Text "2024-01-25"; Number 0.25;
            Number (0.25 - 0.20); Number 0.20];
           [Number 100; Text "ATM"; Text "2024-01-25"; Number 0.20;
            Number (0.20 - 0.20); Number 0.20];
           [Number 110; Text "OTM"; Text "2024-01-25"; Number 0.22;
            Number (0.22 - 0.20); Number 0.20]].
Proof. reflexivity. Qed.



(** * Further properties *)

(** ** The order of the groups *)

Lemma expiry_lt_trans (a b c : string) :
  expiry_lt a b -> expiry_lt b c -> expiry_lt a c.
Proof.
  unfold expiry_lt. intros H1 H2.
  apply String_as_OT.cmp_lt. apply String_as_OT.cmp_lt in H1, H2.
  exact (String_as_OT.lt_trans _ _ _ H1 H2).
Qed.


Lemma expiry_lt_le (a b : string) : expiry_lt a b -> expiry_le a b.
Proof. unfold expiry_lt, expiry_le, String.leb. intros ->. reflexivity. Qed.

Lemma expiry_le_refl (a : string) : expiry_le a a.
Proof.
  unfold expiry_le, String.leb.
  destruct (String.compare a a) eqn:E; try reflexivity.
  pose proof (String.compare_antisym a a) as H. rewrite E in H. discriminate.
Qed.

Lemma compare_Gt_lt (a b : string) : String.compare a b = Gt -> expiry_lt b a.
Proof.
  unfold expiry_lt. intro H. rewrite String.compare_antisym, H. reflexivity.
Qed.

Lemma insert_key_sorted (k : string) (ks : list string) :
  StronglySorted expiry_lt ks -> StronglySorted expiry_lt (insert_key k ks).
Proof.
  induction ks as [|k' ks IH]; intro Hs; simpl.
  - constructor; constructor.
  - inversion Hs as [|? ? Hs' Hall]; subst.
    destruct (String.compare k k') eqn:E.
    + exact Hs.
    + constructor; [exact Hs|]. constructor; [exact E|].
      apply Forall_forall. intros x Hx.
      apply (expiry_lt_trans _ k'); [exact E|].
      rewrite Forall_forall in Hall. exact (Hall x Hx).
    + constructor; [exact (IH Hs')|].
      apply Forall_forall. intros x Hx. apply insert_key_In in Hx.
      destruct Hx as [->|Hx].
      * apply compare_Gt_lt. exact E.
      * rewrite Forall_forall in Hall. exact (Hall x Hx).
Qed.

Lemma sorted_unique_sorted (ks : list string) :
  StronglySorted expiry_lt (sorted_unique ks).
Proof.
  induction ks as [|k ks IH]; simpl; [constructor|].
  apply insert_key_sorted. exact IH.
Qed.



(** ** The frame of [recent_trial.py], group by group *)

Lemma last_cons {A : Type} (x d : A) (l : list A) : last (x :: l) d = last l x.
Proof.
  revert x d. induction l as [|y l IH]; intros x d; [reflexivity|].
  change (last (x :: y :: l) d) with (last (y :: l) d).
  rewrite (IH y d), (IH y x). reflexivity.
Qed.



Lemma fold_skew_step_atm (gs : list (string * list Labeled)) :
  forall (acc : list (list SkewRow)) (a : option Q),
    snd (fold_left RecentTrial.skew_step gs (acc, a))
    = last (map (fun g => mean (RecentTrial.atm_selection (snd g))) gs) a.
Proof.
  induction gs as [|[e g] gs IH]; intros acc a; [reflexivity|].
  cbn [map snd]. rewrite last_cons.
  change (fold_left RecentTrial.skew_step ((e, g) :: gs) (acc, a))
    with (fold_left RecentTrial.skew_step gs (RecentTrial.skew_step (acc, a) (e, g))).
  unfold RecentTrial.skew_step at 2.
  destruct (mean (RecentTrial.atm_selection g)) as [m|]; apply IH.
Qed.

(** The frame and the ATM value of a result, in closed form. *)
Lemma RecentTrial_result_eq (snapshot : DataFrame Quote) (spot_price : Q)
    (df : list Labeled) (curve : list SkewRow) (atm_iv : option Q) :
  RecentTrial.classify_options snapshot spot_price = Return df ->
  RecentTrial.skew_of_snapshot snapshot spot_price = Return (Some (curve, atm_iv)) ->
  df <> [] /\
  curve = List.concat (flat_map RecentTrial.emitted (groupby_expiryDate df)) /\
  atm_iv = last (map (fun g => mean (RecentTrial.atm_selection (snd g)))
                     (groupby_expiryDate df)) None.
Proof.
  intros Hc Hs. unfold RecentTrial.skew_of_snapshot in Hs. rewrite Hc in Hs.
  simpl in Hs. unfold RecentTrial.calculate_volatility_skew in Hs.
  rewrite (RecentTrial_classified_positive _ _ _ Hc) in Hs.
  destruct df as [|x df']; [discriminate|]. cbn [empty] in Hs.
  pose proof (fold_skew_step (groupby_expiryDate (x :: df')) [] None) as Hf.
  pose proof (fold_skew_step_atm (groupby_expiryDate (x :: df')) [] None) as Ha.
  destruct (fold_left RecentTrial.skew_step (groupby_expiryDate (x :: df')) ([], None))
    as [sd a].
  simpl in Hf, Ha. subst sd a.
  destruct (flat_map RecentTrial.emitted (groupby_expiryDate (x :: df')));
    [discriminate|].
  injection Hs as <- <-. split; [discriminate|]. split; reflexivity.
Qed.

Lemma group_rows_expiry (e : string) (df : list Labeled) (r : SkewRow) :
  In r (group_rows e df) -> row_expiryDate r = e.
Proof.
  unfold group_rows. destruct (mean _) as [a|]; [|contradiction].
  intro H. apply skew_rows_In in H. destruct H as (x & Hx & ->).
  apply group_of_In in Hx. simpl. tauto.
Qed.

Lemma emitted_group_rows (k : string) (v : list Labeled) :
  List.concat (RecentTrial.emitted (k, group_of k v)) = group_rows k v.
Proof.
  unfold RecentTrial.emitted, group_rows. simpl snd.
  destruct (mean _); simpl; [apply app_nil_r | reflexivity].
Qed.

Lemma frame_blocks (keys : list string) (v : list Labeled) :
  List.concat (flat_map RecentTrial.emitted (map (fun k => (k, group_of k v)) keys))
  = flat_map (fun k => group_rows k v) keys.
Proof.
  induction keys as [|k keys IH]; [reflexivity|].
  simpl. rewrite concat_app, emitted_group_rows, IH. reflexivity.
Qed.





Lemma StronglySorted_app {A : Type} (R : A -> A -> Prop) (l1 l2 : list A) :
  StronglySorted R l1 -> StronglySorted R l2 ->
  (forall x y, In x l1 -> In y l2 -> R x y) ->
  StronglySorted R (l1 ++ l2).
Proof.
  induction 1 as [|x l1 Hs IH Hall]; intros H2 Hx; simpl; [exact H2|].
  constructor.
  - apply IH; [exact H2|]. intros a b Ha Hb. apply Hx; simpl; auto.
  - apply Forall_app. split; [exact Hall|].
    apply Forall_forall. intros y Hy. apply Hx; simpl; auto.
Qed.

Lemma StronglySorted_constant (e : string) (l : list string) :
  (forall x, In x l -> x = e) -> StronglySorted expiry_le l.
Proof.
  induction l as [|x l IH]; intro H; constructor.
  - apply IH. intros; apply H; simpl; auto.
  - apply Forall_forall. intros y Hy.
    rewrite (H x) by (simpl; auto). rewrite (H y) by (simpl; auto).
    apply expiry_le_refl.
Qed.

Lemma blocks_sorted (keys : list string) (v : list Labeled) :
  StronglySorted expiry_lt keys ->
  StronglySorted expiry_le
    (map row_expiryDate (flat_map (fun k => group_rows k v) keys)).
Proof.
  induction 1 as [|k keys Hs IH Hall]; [constructor|].
  simpl flat_map. rewrite map_app. apply StronglySorted_app.
  - apply (StronglySorted_constant k). intros x Hx. apply in_map_iff in Hx.
    destruct Hx as (r & <- & Hr). exact (group_rows_expiry _ _ _ Hr).
  - exact IH.
  - intros x y Hx Hy. apply in_map_iff in Hx, Hy.
    destruct Hx as (r & <- & Hr). destruct Hy as (r' & <- & Hr').
    rewrite (group_rows_expiry _ _ _ Hr).
    apply in_flat_map in Hr'. destruct Hr' as (k' & Hk' & Hr').
    rewrite (group_rows_expiry _ _ _ Hr'). apply expiry_lt_le.
    rewrite Forall_forall in Hall. exact (Hall k' Hk').
Qed.

(** X3. The rows of the frame of [recent_trial.py] come by expiry in
    ascending order of the expiry strings, whatever the order of the
    snapshot. *)
Theorem X3_frame_sorted_by_expiry :
  forall (snapshot : DataFrame Quote) (spot_price : Q)
         (curve : list SkewRow) (atm_iv : option Q),
    RecentTrial.skew_of_snapshot snapshot spot_price
    = Return (Some (curve, atm_iv)) ->
    StronglySorted expiry_le (map row_expiryDate curve).
Proof.
  intros snapshot spot_price curve atm_iv Hs.
  destruct (RecentTrial.classify_options snapshot spot_price) as [df|e] eqn:Hc.
  - destruct (RecentTrial_result_eq _ _ _ _ _ Hc Hs) as (_ & -> & _).
    unfold groupby_expiryDate. rewrite frame_blocks.
    apply blocks_sorted, sorted_unique_sorted.
  - unfold RecentTrial.skew_of_snapshot in Hs. rewrite Hc in Hs. discriminate.
Qed.

Lemma X3_witness : StronglySorted expiry_le (map row_expiryDate curve6).
Proof.
  apply (X3_frame_sorted_by_expiry (Frame chain6) 100 curve6 (Some 0.19)).
  reflexivity.
Defined.


(** ** The outcomes of [skew_of_snapshot] of [recent_trial.py] *)

Lemma RecentTrial_label_ATM (spot_price strike : Q) :
  RecentTrial.label spot_price strike = ATM <-> strike == spot_price.
Proof.
  destruct (RecentTrial_label_rule spot_price strike) as (Ha & Hi & Ho).
  split; [|exact Ha]. intro H.
  destruct (Q_dec strike spot_price) as [[Hlt|Hgt]|Heq]; [| |exact Heq].
  - rewrite (Hi Hlt) in H. discriminate.
  - rewrite (Ho Hgt) in H. discriminate.
Qed.

Lemma RecentTrial_atm_quote_returns (snapshot : DataFrame Quote)
    (spot_price : Q) (df : list Labeled) (x : Labeled) :
  RecentTrial.classify_options snapshot spot_price = Return df ->
  In x df -> moneyness x = ATM ->
  exists curve atm_iv,
    RecentTrial.skew_of_snapshot snapshot spot_price = Return (Some (curve, atm_iv)).
Proof.
  intros Hc Hx Hatm.
  assert (Hsel : RecentTrial.atm_selection (group_of (expiryDate x) df) <> []).
  { intro H.
    assert (Hin : In (impliedVolatility x)
                     (RecentTrial.atm_selection (group_of (expiryDate x) df))).
    { apply atm_selection_In. exists x. split; [|auto]. apply group_of_In. auto. }
    rewrite H in Hin. contradiction. }
  destruct (mean_Some_nonempty _ Hsel) as [a Ha].
  assert (Hrow : In (RecentTrial.skew_row a x)
            (List.concat (flat_map RecentTrial.emitted (groupby_expiryDate df)))).
  { apply skew_data_In. exists x, a. auto. }
  pose proof (RecentTrial_calculate_cases df) as Hcases.
  rewrite (RecentTrial_classified_positive _ _ _ Hc) in Hcases. simpl in Hcases.
  unfold RecentTrial.skew_of_snapshot. rewrite Hc. simpl.
  destruct Hcases as [[Hv _]|[(_ & Hsd & _)|(_ & _ & atm_iv & Hcalc)]].
  - subst df. contradiction.
  - rewrite Hsd in Hrow. contradiction.
  - eexists _, atm_iv. exact Hcalc.
Qed.

Lemma RecentTrial_no_atm_quote_raises (snapshot : DataFrame Quote)
    (spot_price : Q) (df : list Labeled) :
  RecentTrial.classify_options snapshot spot_price = Return df ->
  df <> [] ->
  (forall r, In r df -> moneyness r <> ATM) ->
  RecentTrial.skew_of_snapshot snapshot spot_price = Raise ValueError.
Proof.
  intros Hc Hne Hno.
  destruct (RecentTrial.skew_of_snapshot snapshot spot_price) as [[[curve a]|]|e] eqn:Hs.
  - exfalso. destruct (RecentTrial_result_eq _ _ _ _ _ Hc Hs) as (_ & Hcurve & _).
    unfold RecentTrial.skew_of_snapshot in Hs. rewrite Hc in Hs. simpl in Hs.
    pose proof (RecentTrial_calculate_cases df) as Hcases.
    rewrite (RecentTrial_classified_positive _ _ _ Hc) in Hcases. simpl in Hcases.
    destruct Hcases as [[_ H]|[(_ & _ & H)|(_ & Hsd & _)]];
      try (rewrite H in Hs; discriminate).
    destruct (nonempty_In _ Hsd) as [l Hl].
    apply in_flat_map in Hl. destruct Hl as (g & Hg & Hl).
    apply groupby_In in Hg. destruct Hg as [_ Hg].
    unfold RecentTrial.emitted in Hl.
    destruct (RecentTrial.atm_selection (snd g)) as [|iv l'] eqn:Hsel;
      [contradiction|].
    assert (Hiv : In iv (RecentTrial.atm_selection (snd g)))
      by (rewrite Hsel; simpl; auto).
    apply atm_selection_In in Hiv. destruct Hiv as (x & Hx & Hatm & _).
    rewrite Hg in Hx. apply group_of_In in Hx. exact (Hno x (proj1 Hx) Hatm).
  - exfalso. unfold RecentTrial.skew_of_snapshot in Hs. rewrite Hc in Hs. simpl in Hs.
    pose proof (RecentTrial_calculate_cases df) as Hcases.
    rewrite (RecentTrial_classified_positive _ _ _ Hc) in Hcases. simpl in Hcases.
    destruct Hcases as [[Hv _]|[(_ & _ & H)|(_ & _ & a & H)]];
      [contradiction | rewrite H in Hs; discriminate | rewrite H in Hs; discriminate].
  - unfold RecentTrial.skew_of_snapshot in Hs. rewrite Hc in Hs. simpl in Hs.
    pose proof (RecentTrial_calculate_cases df) as Hcases.
    rewrite (RecentTrial_classified_positive _ _ _ Hc) in Hcases. simpl in Hcases.
    destruct Hcases as [[Hv _]|[(_ & _ & H)|(_ & _ & a & H)]];
      [contradiction | congruence | rewrite H in Hs; discriminate].
Qed.

Lemma snapshot_cases (snapshot : DataFrame Quote) (spot_price : Q) :
  snapshot = NoColumns \/
  (exists rows, snapshot = Frame rows /\
                forall x, In x rows -> impliedVolatility x <= 0) \/
  (exists rows, snapshot = Frame rows /\
                (exists x, In x rows /\ 0 < impliedVolatility x) /\
                forall x, In x rows -> 0 < impliedVolatility x ->
                          ~ strikePrice x == spot_price) \/
  (exists rows, snapshot = Frame rows /\
                exists x, In x rows /\ 0 < impliedVolatility x /\
                          strikePrice x == spot_price).
Proof.
  destruct snapshot as [|rows]; [left; reflexivity|]. right.
  destruct (filter iv_positive rows) as [|x0 v] eqn:Hv.
  - left. exists rows. split; [reflexivity|]. intros x Hx.
    apply Qnot_lt_le. intro Hpos.
    assert (Hin : In x (filter iv_positive rows))
      by (apply filter_In; split; [exact Hx | apply iv_positive_spec; exact Hpos]).
    rewrite Hv in Hin. contradiction.
  - right.
    assert (H0 : In x0 rows /\ 0 < impliedVolatility x0).
    { assert (Hin : In x0 (filter iv_positive rows)) by (rewrite Hv; simpl; auto).
      apply filter_In in Hin. rewrite iv_positive_spec in Hin. exact Hin. }
    destruct (existsb (fun x => Qeq_bool (strikePrice x) spot_price)
                (filter iv_positive rows)) eqn:Hex.
    + right. exists rows. split; [reflexivity|].
      apply existsb_exists in Hex. destruct Hex as (x & Hx & Heq).
      apply filter_In in Hx. rewrite iv_positive_spec in Hx.
      apply Qeq_bool_iff in Heq. exists x. tauto.
    + left. exists rows. split; [reflexivity|]. split; [exists x0; exact H0|].
      intros x Hx Hpos Heq.
      assert (Htrue : existsb (fun x => Qeq_bool (strikePrice x) spot_price)
                        (filter iv_positive rows) = true).
      { apply existsb_exists. exists x. split.
        - apply filter_In. rewrite iv_positive_spec. auto.
        - apply Qeq_bool_iff. exact Heq. }
      congruence.
Qed.

Lemma outcome_no_columns (spot_price : Q) :
  RecentTrial.skew_of_snapshot NoColumns spot_price = Raise KeyError.
Proof. reflexivity. Qed.

Lemma outcome_value_error (rows : list Quote) (spot_price : Q) :
  (exists x, In x rows /\ 0 < impliedVolatility x) ->
  (forall x, In x rows -> 0 < impliedVolatility x -> ~ strikePrice x == spot_price) ->
  RecentTrial.skew_of_snapshot (Frame rows) spot_price = Raise ValueError.
Proof.
  intros (x & Hx & Hpos) Hno.
  apply (RecentTrial_no_atm_quote_raises _ _ _ (RecentTrial_classify_rows rows spot_price)).
  - intro H.
    assert (Hin : In (mkLabeled x (RecentTrial.label spot_price (strikePrice x)))
                     (map (fun r => mkLabeled r (RecentTrial.label spot_price (strikePrice r)))
                          (filter iv_positive rows))).
    { apply (in_map (fun r => mkLabeled r (RecentTrial.label spot_price (strikePrice r)))).
      apply filter_In. rewrite iv_positive_spec. auto. }
    rewrite H in Hin. contradiction.
  - intros r Hr Hatm.
    apply (RecentTrial_classified_In _ _ _ r (RecentTrial_classify_rows rows spot_price))
      in Hr.
    destruct Hr as (rows' & [= <-] & Hin & Hpos' & Hm).
    rewrite Hm in Hatm. apply RecentTrial_label_ATM in Hatm.
    exact (Hno _ Hin Hpos' Hatm).
Qed.

Lemma outcome_frame (rows : list Quote) (spot_price : Q) (x : Quote) :
  In x rows -> 0 < impliedVolatility x -> strikePrice x == spot_price ->
  exists curve atm_iv,
    RecentTrial.skew_of_snapshot (Frame rows) spot_price
    = Return (Some (curve, atm_iv)).
Proof.
  intros Hx Hpos Heq.
  apply (RecentTrial_atm_quote_returns _ _ _
           (mkLabeled x (RecentTrial.label spot_price (strikePrice x)))
           (RecentTrial_classify_rows rows spot_price)).
  - apply (in_map (fun r => mkLabeled r (RecentTrial.label spot_price (strikePrice r)))).
    apply filter_In. rewrite iv_positive_spec. auto.
  - simpl. apply RecentTrial_label_ATM. exact Heq.
Qed.

Lemma RecentTrial_frame_nonempty (snapshot : DataFrame Quote) (spot_price : Q)
    (curve : list SkewRow) (atm_iv : option Q) :
  RecentTrial.skew_of_snapshot snapshot spot_price = Return (Some (curve, atm_iv)) ->
  curve <> [].
Proof.
  intro Hs.
  destruct (RecentTrial.classify_options snapshot spot_price) as [df|e] eqn:Hc;
    [|unfold RecentTrial.skew_of_snapshot in Hs; rewrite Hc in Hs; discriminate].
  destruct (RecentTrial_result_eq _ _ _ _ _ Hc Hs) as (Hne & _ & _).
  destruct (filter (fun r : Labeled => Moneyness_eqb (moneyness r) ATM) df)
    as [|x l] eqn:Hf.
  - exfalso.
    assert (Hno : forall r, In r df -> moneyness r <> ATM).
    { intros r Hr Hatm.
      assert (Hin : In r (filter (fun r : Labeled => Moneyness_eqb (moneyness r) ATM) df))
        by (apply filter_In; split; [exact Hr | apply Moneyness_eqb_eq; exact Hatm]).
      rewrite Hf in Hin. contradiction. }
    rewrite (RecentTrial_no_atm_quote_raises _ _ _ Hc Hne Hno) in Hs. discriminate.
  - assert (Hx : In x (filter (fun r : Labeled => Moneyness_eqb (moneyness r) ATM) df))
      by (rewrite Hf; simpl; auto).
    apply filter_In in Hx. destruct Hx as [Hx Hatm]. apply Moneyness_eqb_eq in Hatm.
    assert (Hsel : RecentTrial.atm_selection (group_of (expiryDate x) df) <> []).
    { intro H.
      assert (Hin : In (impliedVolatility x)
                       (RecentTrial.atm_selection (group_of (expiryDate x) df))).
      { apply atm_selection_In. exists x. split; [|auto]. apply group_of_In. auto. }
      rewrite H in Hin. contradiction. }
    destruct (mean_Some_nonempty _ Hsel) as [a Ha].
    assert (Hrow : In (RecentTrial.skew_row a x) curve).
    { apply (RecentTrial_curve_rows _ _ _ _ _ Hc Hs). exists x, a. auto. }
    intro H. rewrite H in Hrow. contradiction.
Qed.

(** X1. The four outcomes of classification followed by the skew
    computation of [recent_trial.py], by the snapshot: [KeyError] exactly
    for the frame without columns; [None] exactly when no quote has a
    positive implied volatility; [ValueError] exactly when some quote has
    one and none of those is at the spot price; a frame exactly when a
    quote with a positive implied volatility is at the spot price, and
    that frame is never empty. *)
Theorem X1_skew_of_snapshot_outcomes :
  forall (snapshot : DataFrame Quote) (spot_price : Q),
    (RecentTrial.skew_of_snapshot snapshot spot_price = Raise KeyError <->
     snapshot = NoColumns) /\
    (RecentTrial.skew_of_snapshot snapshot spot_price = Return None <->
     exists rows, snapshot = Frame rows /\
                  forall x, In x rows -> impliedVolatility x <= 0) /\
    (RecentTrial.skew_of_snapshot snapshot spot_price = Raise ValueError <->
     exists rows, snapshot = Frame rows /\
                  (exists x, In x rows /\ 0 < impliedVolatility x) /\
                  forall x, In x rows -> 0 < impliedVolatility x ->
                            ~ strikePrice x == spot_price) /\
    ((exists curve atm_iv,
         RecentTrial.skew_of_snapshot snapshot spot_price
         = Return (Some (curve, atm_iv)) /\ curve <> []) <->
     exists rows, snapshot = Frame rows /\
                  exists x, In x rows /\ 0 < impliedVolatility x /\
                            strikePrice x == spot_price).
Proof.
  intros snapshot spot_price.
  assert (S2 : forall rows, (forall x, In x rows -> impliedVolatility x <= 0) ->
               RecentTrial.skew_of_snapshot (Frame rows) spot_price = Return None)
    by (intros; apply RecentTrial_no_positive_quote; assumption).
  pose proof (fun rows => outcome_value_error rows spot_price) as S3.
  pose proof (fun rows => outcome_frame rows spot_price) as S4.
  destruct (snapshot_cases snapshot spot_price)
    as [->|[(rows & -> & H)|[(rows & -> & H1 & H2)|(rows & -> & x & Hx & Hp & He)]]].
  - rewrite outcome_no_columns. split; [|split; [|split]]; split; intro H.
    + reflexivity.
    + reflexivity.
    + discriminate.
    + destruct H as (rows & H & _). discriminate.
    + discriminate.
    + destruct H as (rows & H & _). discriminate.
    + destruct H as (c & a & H & _). discriminate.
    + destruct H as (rows & H & _). discriminate.
  - rewrite (S2 rows H). split; [|split; [|split]]; split; intro H'.
    + discriminate.
    + discriminate.
    + exists rows. auto.
    + reflexivity.
    + discriminate.
    + destruct H' as (rows' & [= <-] & (x & Hx & Hp) & _).
      specialize (H x Hx). lra.
    + destruct H' as (c & a & H' & _). discriminate.
    + destruct H' as (rows' & [= <-] & x & Hx & Hp & _). specialize (H x Hx). lra.
  - rewrite (S3 rows H1 H2). split; [|split; [|split]]; split; intro H'.
    + discriminate.
    + discriminate.
    + discriminate.
    + destruct H' as (rows' & [= <-] & H'). destruct H1 as (x & Hx & Hp).
      specialize (H' x Hx). lra.
    + exists rows. auto.
    + reflexivity.
    + destruct H' as (c & a & H' & _). discriminate.
    + destruct H' as (rows' & [= <-] & x & Hx & Hp & He).
      exfalso. exact (H2 x Hx Hp He).
  - destruct (S4 rows x Hx Hp He) as (c & a & Hs). rewrite Hs.
    split; [|split; [|split]]; split; intro H'.
    + discriminate.
    + discriminate.
    + discriminate.
    + destruct H' as (rows' & [= <-] & H'). specialize (H' x Hx). lra.
    + discriminate.
    + destruct H' as (rows' & [= <-] & _ & H'). exfalso. exact (H' x Hx Hp He).
    + exists rows. split; [reflexivity|]. exists x. auto.
    + exists c, a. split; [reflexivity|].
      exact (RecentTrial_frame_nonempty _ _ _ _ Hs).
Qed.

(** ** Drift between two frames of [recent_trial.py] at one spot price *)

Lemma curve_row_atm (snapshot : DataFrame Quote) (spot_price : Q)
    (curve : list SkewRow) (atm_iv : option Q) (r : SkewRow) :
  RecentTrial.skew_of_snapshot snapshot spot_price = Return (Some (curve, atm_iv)) ->
  In r curve ->
  (row_moneyness r = ATM <-> row_strikePrice r == spot_price).
Proof.
  intros Hs Hr.
  destruct (RecentTrial.classify_options snapshot spot_price) as [df|e] eqn:Hc;
    [|unfold RecentTrial.skew_of_snapshot in Hs; rewrite Hc in Hs; discriminate].
  apply (RecentTrial_curve_rows _ _ _ _ _ Hc Hs) in Hr.
  destruct Hr as (x & a & Hx & _ & ->). simpl.
  apply (RecentTrial_classified_In _ _ _ x Hc) in Hx.
  destruct Hx as (_ & _ & _ & _ & ->). apply RecentTrial_label_ATM.
Qed.

(** ** The rows at the spot price on a chain that quotes each key once *)

Lemma Qeq_bool_compat_r (x s1 s2 : Q) :
  s1 == s2 -> Qeq_bool x s1 = Qeq_bool x s2.
Proof.
  intro H. destruct (Qeq_bool x s2) eqn:E.
  - apply Qeq_bool_iff. apply Qeq_bool_iff in E. rewrite H. exact E.
  - destruct (Qeq_bool x s1) eqn:E1; [|reflexivity].
    apply Qeq_bool_iff in E1. rewrite H in E1. apply Qeq_bool_iff in E1.
    congruence.
Qed.

Lemma quotes_at_compat (s1 s2 : Q) (e : string) (rows : list Quote) :
  s1 == s2 -> quotes_at s1 e rows = quotes_at s2 e rows.
Proof.
  intro H. unfold quotes_at. apply filter_ext. intro x. unfold quoted_at.
  rewrite (Qeq_bool_compat_r _ _ _ H). reflexivity.
Qed.

(** The mean of one value is that value: nothing is added to it and it is
    divided by one. *)
Lemma arithmetic_mean_single (v a : Q) : arithmetic_mean [v] = Some a -> a == v.
Proof.
  intros [= <-]. cbn [total List.length Z.of_nat Pos.of_succ_nat].
  unfold Qdiv. change (/ inject_Z 1) with 1. ring.
Qed.

Lemma curve_atm_single (rows : list Quote) (spot_price : Q)
    (curve : list SkewRow) (atm_iv : option Q) (r : SkewRow) :
  one_quote_per_key rows ->
  RecentTrial.skew_of_snapshot (Frame rows) spot_price
  = Return (Some (curve, atm_iv)) ->
  In r curve -> row_moneyness r = ATM ->
  ATM_IV r == row_impliedVolatility r /\ skew r == 0.
Proof.
  intros Hone Hs Hr Hatm.
  destruct (RecentTrial_row_reference _ _ _ _ r Hs Hr)
    as (x & Hin & Hpos & _ & He & Hiv & Hl & Hm & Hsk).
  rewrite Hl in Hatm. apply RecentTrial_label_ATM in Hatm.
  unfold atm_quotes_of_expiry in Hm.
  rewrite He, <- (quotes_at_compat _ _ _ _ Hatm), (Hone x Hin Hpos) in Hm.
  apply arithmetic_mean_single in Hm.
  assert (Ha : ATM_IV r == row_impliedVolatility r) by (rewrite Hiv; exact Hm).
  split; [exact Ha|]. rewrite Hsk, Ha. ring.
Qed.

(** X5. On a chain that quotes each strike and expiry once, a row of the
    frame of [recent_trial.py] at the spot price (labelled ATM) is its own
    reference: its [ATM_IV] is its implied volatility and its skew is
    zero. *)
Theorem X5_atm_row_is_its_own_reference :
  forall (rows : list Quote) (spot_price : Q) (curve : list SkewRow)
         (atm_iv : option Q) (r : SkewRow),
    one_quote_per_key rows ->
    RecentTrial.skew_of_snapshot (Frame rows) spot_price
    = Return (Some (curve, atm_iv)) ->
    In r curve -> row_moneyness r = ATM ->
    ATM_IV r == row_impliedVolatility r /\ skew r == 0.
Proof. exact curve_atm_single. Qed.

(** X6. When the current frame comes from the pipeline of
    [recent_trial.py], every record of [compare_skews] is at a strike equal
    to the spot price of that cycle, whatever the baseline. *)
Theorem X6_records_at_the_spot_price :
  forall (snapshot : DataFrame Quote) (spot_price : Q)
         (current_skew : list SkewRow) (atm_iv : option Q)
         (baseline_skew : list SkewRow) (threshold : Q) (rec : ChangeRecord),
    RecentTrial.skew_of_snapshot snapshot spot_price
    = Return (Some (current_skew, atm_iv)) ->
    In rec (RecentTrial.records
              (RecentTrial.compare_skews (Some baseline_skew) (Some current_skew)
                 threshold)) ->
    chg_strikePrice rec == spot_price.
Proof.
  intros snapshot spot_price current_skew atm_iv baseline_skew threshold rec Hs Hrec.
  apply RecentTrial_records_In in Hrec.
  destruct Hrec as (c & b & Hc & _ & _ & _ & Hatm & _ & ->). simpl.
  apply (curve_row_atm _ _ _ _ c Hs Hc). exact Hatm.
Qed.

(** X7. When baseline and current frame come from the pipeline of
    [recent_trial.py] at the same spot price, on chains that quote each
    strike and expiry once, every record of [compare_skews] has a skew
    change of zero: the records are decided by the change of implied
    volatility alone. *)
Theorem X7_skew_change_is_zero :
  forall (rows_baseline rows_current : list Quote) (spot_price : Q)
         (baseline_skew current_skew : list SkewRow) (a1 a2 : option Q)
         (threshold : Q) (rec : ChangeRecord),
    one_quote_per_key rows_baseline ->
    one_quote_per_key rows_current ->
    RecentTrial.skew_of_snapshot (Frame rows_baseline) spot_price
    = Return (Some (baseline_skew, a1)) ->
    RecentTrial.skew_of_snapshot (Frame rows_current) spot_price
    = Return (Some (current_skew, a2)) ->
    In rec (RecentTrial.records
              (RecentTrial.compare_skews (Some baseline_skew) (Some current_skew)
                 threshold)) ->
    skew_change rec == 0 /\ threshold < Qabs (ATM_IV_change rec).
Proof.
  intros rows_b rows_c spot_price base cur a1 a2 threshold rec Hob Hoc Hsb Hsc Hrec.
  apply RecentTrial_records_In in Hrec.
  destruct Hrec as (c & b & Hc & Hb & Hstrike & _ & Hatm & Hsig & ->).
  cbn [ATM_IV_change skew_change].
  assert (Hzc : skew c == 0)
    by exact (proj2 (curve_atm_single _ _ _ _ c Hoc Hsc Hc Hatm)).
  assert (Hbatm : row_moneyness b = ATM).
  { apply (curve_row_atm _ _ _ _ b Hsb Hb). rewrite <- Hstrike.
    apply (curve_row_atm _ _ _ _ c Hsc Hc). exact Hatm. }
  assert (Hzb : skew b == 0)
    by exact (proj2 (curve_atm_single _ _ _ _ b Hob Hsb Hb Hbatm)).
  assert (Hz : skew c - skew b == 0) by (rewrite Hzc, Hzb; ring).
  split; [exact Hz|].
  destruct Hsig as [H|H]; [exact H|].
  rewrite Hz in H. change (Qabs 0) with 0 in H.
  apply (Qlt_le_trans _ 0); [exact H | apply Qabs_nonneg].
Qed.

Lemma not_above_threshold (d threshold : Q) :
  d == 0 -> 0 <= threshold -> Qgtb (Qabs d) threshold = false.
Proof.
  intros Hd Ht. destruct (Qgtb (Qabs d) threshold) eqn:E; [|reflexivity].
  apply Qgtb_gt in E. rewrite Hd in E. change (Qabs 0) with 0 in E. lra.
Qed.

Lemma compare_same_curve (curve : list SkewRow) (threshold : Q) :
  0 <= threshold -> one_row_per_key curve ->
  RecentTrial.compare_skews (Some curve) (Some curve) threshold = None.
Proof.
  intros Ht Hone. unfold RecentTrial.compare_skews.
  rewrite (filter_none (RecentTrial.significant threshold)); [reflexivity|].
  intros [c b] Hm. apply filter_In in Hm. destruct Hm as [Hm _].
  apply merge_In in Hm. simpl in Hm. destruct Hm as (Hc & Hb & Hk).
  destruct (Hone c b Hc Hb Hk) as [Hiv Hsk].
  unfold RecentTrial.significant, RecentTrial.iv_delta, RecentTrial.skew_delta.
  cbn [fst snd].
  rewrite !not_above_threshold; try exact Ht; [reflexivity | rewrite Hsk; ring | rewrite Hiv; ring].
Qed.

Lemma pipeline_one_row_per_key (rows : list Quote) (spot_price : Q)
    (curve : list SkewRow) (atm_iv : option Q) :
  one_iv_per_key rows ->
  RecentTrial.skew_of_snapshot (Frame rows) spot_price
  = Return (Some (curve, atm_iv)) ->
  one_row_per_key curve.
Proof.
  intros Hone Hs r1 r2 H1 H2 Hk.
  pose proof (RecentTrial_classify_rows rows spot_price) as Hc.
  apply (RecentTrial_curve_rows _ _ _ _ _ Hc Hs) in H1, H2.
  destruct H1 as (x1 & a1 & Hx1 & Hm1 & ->). destruct H2 as (x2 & a2 & Hx2 & Hm2 & ->).
  apply same_key_spec in Hk. cbn [row_strikePrice row_expiryDate RecentTrial.skew_row] in Hk.
  destruct Hk as [Hstrike Hexp].
  apply (RecentTrial_classified_In _ _ _ x1 Hc) in Hx1.
  apply (RecentTrial_classified_In _ _ _ x2 Hc) in Hx2.
  destruct Hx1 as (rows1 & [= <-] & Hin1 & Hpos1 & _).
  destruct Hx2 as (rows2 & [= <-] & Hin2 & Hpos2 & _).
  assert (Hiv : impliedVolatility x1 == impliedVolatility x2)
    by exact (Hone x1 x2 Hin1 Hin2 Hpos1 Hpos2 Hstrike Hexp).
  assert (Ha : a1 = a2) by (rewrite Hexp in Hm1; congruence).
  cbn [row_impliedVolatility skew RecentTrial.skew_row]. subst a2.
  split; [exact Hiv | rewrite Hiv; reflexivity].
Qed.

(** X8. A frame of the pipeline of [recent_trial.py], on a chain that
    quotes one implied volatility for a strike and expiry, compared with
    itself at a threshold that is not negative gives [None]. *)
Theorem X8_no_drift_against_itself :
  forall (rows : list Quote) (spot_price : Q) (curve : list SkewRow)
         (atm_iv : option Q) (threshold : Q),
    one_iv_per_key rows ->
    RecentTrial.skew_of_snapshot (Frame rows) spot_price
    = Return (Some (curve, atm_iv)) ->
    0 <= threshold ->
    RecentTrial.compare_skews (Some curve) (Some curve) threshold = None.
Proof.
  intros rows spot_price curve atm_iv threshold Hone Hs Ht.
  apply compare_same_curve; [exact Ht|].
  exact (pipeline_one_row_per_key _ _ _ _ Hone Hs).
Qed.

(** ** The dictionaries of [app.py] *)

Lemma key_eqb_refl (k : App.key) : App.key_eqb k k = true.
Proof.
  unfold App.key_eqb. rewrite String.eqb_refl, andb_true_r.
  apply Qeq_bool_iff. reflexivity.
Qed.

Lemma key_eqb_spec (a b : App.key) :
  App.key_eqb a b = true <-> fst a == fst b /\ snd a = snd b.
Proof.
  unfold App.key_eqb. rewrite andb_true_iff, Qeq_bool_iff, String.eqb_eq.
  reflexivity.
Qed.

Lemma key_eqb_sym (a b : App.key) : App.key_eqb a b = App.key_eqb b a.
Proof.
  destruct (App.key_eqb a b) eqn:E1, (App.key_eqb b a) eqn:E2; try reflexivity.
  - apply key_eqb_spec in E1. destruct E1 as [H1 H2].
    assert (App.key_eqb b a = true)
      by (apply key_eqb_spec; split; [symmetry; exact H1 | congruence]).
    congruence.
  - apply key_eqb_spec in E2. destruct E2 as [H1 H2].
    assert (App.key_eqb a b = true)
      by (apply key_eqb_spec; split; [symmetry; exact H1 | congruence]).
    congruence.
Qed.

Lemma key_eqb_trans (a b c : App.key) :
  App.key_eqb a b = true -> App.key_eqb b c = true -> App.key_eqb a c = true.
Proof.
  rewrite !key_eqb_spec. intros [H1 H2] [H3 H4]. split; [|congruence].
  rewrite H1. exact H3.
Qed.

Lemma key_eqb_congr (a b c : App.key) :
  App.key_eqb a b = true -> App.key_eqb a c = App.key_eqb b c.
Proof.
  intro Hab. destruct (App.key_eqb b c) eqn:E.
  - exact (key_eqb_trans _ _ _ Hab E).
  - destruct (App.key_eqb a c) eqn:E'; [|reflexivity].
    rewrite key_eqb_sym in Hab. rewrite (key_eqb_trans _ _ _ Hab E') in E.
    discriminate.
Qed.

Lemma dict_get_set (k k1 : App.key) (v : Q) (d : list (App.key * Q)) :
  App.dict_get k (App.dict_set k1 v d)
  = if App.key_eqb k1 k then Some v else App.dict_get k d.
Proof.
  induction d as [|[k' v'] d IH]; simpl.
  - reflexivity.
  - destruct (App.key_eqb k' k1) eqn:E1; simpl.
    + rewrite (key_eqb_congr _ _ k E1).
      destruct (App.key_eqb k1 k); reflexivity.
    + rewrite IH. destruct (App.key_eqb k' k) eqn:E2; [|reflexivity].
      destruct (App.key_eqb k1 k) eqn:E3; [|reflexivity].
      rewrite key_eqb_sym in E3. rewrite (key_eqb_trans _ _ _ E2 E3) in E1.
      discriminate.
Qed.

Lemma dict_fold_get (k : App.key) (df : list Quote) :
  forall d : list (App.key * Q),
    App.dict_get k
      (fold_left (fun d row => App.dict_set (strikePrice row, expiryDate row)
                                           (impliedVolatility row) d) df d)
    = fold_left (fun acc row =>
                   if App.key_eqb (key_of row) k then Some (impliedVolatility row)
                   else acc)
                df (App.dict_get k d).
Proof.
  induction df as [|row df IH]; intro d; [reflexivity|].
  cbn [fold_left]. rewrite IH, dict_get_set. reflexivity.
Qed.

Lemma dict_last_iv (df : list Quote) (k : App.key) :
  App.dict_get k (App.dict_of df) = last_iv k df.
Proof. unfold App.dict_of, last_iv. apply dict_fold_get. Qed.

Lemma last_iv_from (k : App.key) (df : list Quote) :
  forall acc : option Q,
    (forall r, In r df -> App.key_eqb (key_of r) k = false) ->
    fold_left (fun acc row =>
                 if App.key_eqb (key_of row) k then Some (impliedVolatility row)
                 else acc) df acc = acc.
Proof.
  induction df as [|r df IH]; intros acc H; [reflexivity|].
  cbn [fold_left]. rewrite (H r) by (simpl; auto).
  apply IH. intros; apply H; simpl; auto.
Qed.

(** X9. The dictionary that [compare_skews] of [app.py] builds from a
    frame holds, for a key, the implied volatility of the last row with
    that key, and nothing for a key no row has. *)
Theorem X9_dict_last_row_wins :
  forall (df : list Quote) (k : App.key),
    (forall (before after : list Quote) (row : Quote),
        df = before ++ row :: after ->
        App.key_eqb (key_of row) k = true ->
        (forall r, In r after -> App.key_eqb (key_of r) k = false) ->
        App.dict_get k (App.dict_of df) = Some (impliedVolatility row)) /\
    ((forall r, In r df -> App.key_eqb (key_of r) k = false) ->
     App.dict_get k (App.dict_of df) = None).
Proof.
  intros df k. split.
  - intros before after row -> Hrow Hafter.
    rewrite dict_last_iv. unfold last_iv. rewrite fold_left_app.
    cbn [fold_left]. rewrite Hrow. apply last_iv_from. exact Hafter.
  - intro H. rewrite dict_last_iv. apply last_iv_from. exact H.
Qed.

Lemma dict_set_keys (k : App.key) (v : Q) (d : list (App.key * Q))
    (item : App.key * Q) :
  In item (App.dict_set k v d) ->
  (exists v0, In (fst item, v0) d) \/ fst item = k.
Proof.
  induction d as [|[k' v'] d IH]; simpl.
  - intros [<-|[]]. right. reflexivity.
  - destruct (App.key_eqb k' k); simpl.
    + intros [<-|H]; left; simpl.
      * exists v'. auto.
      * exists (snd item). right. destruct item; exact H.
    + intros [<-|H].
      * left. exists v'. simpl. auto.
      * destruct (IH H) as [[v0 H0]|H0]; [left; exists v0; auto | right; exact H0].
Qed.

Lemma dict_set_distinct (k : App.key) (v : Q) (d : list (App.key * Q)) :
  distinct_keys d -> distinct_keys (App.dict_set k v d).
Proof.
  induction d as [|[k' v'] d IH]; simpl.
  - intros _. split; [intros item []|exact I].
  - intros [Hk Hd]. destruct (App.key_eqb k' k) eqn:E; simpl.
    + split; assumption.
    + split; [|exact (IH Hd)]. intros item Hitem.
      destruct (dict_set_keys _ _ _ _ Hitem) as [[v0 H0]|H0].
      * exact (Hk _ H0).
      * rewrite H0. exact E.
Qed.

Lemma dict_of_distinct (df : list Quote) : distinct_keys (App.dict_of df).
Proof.
  unfold App.dict_of.
  assert (H : forall d, distinct_keys d ->
              distinct_keys (fold_left (fun d row =>
                 App.dict_set (strikePrice row, expiryDate row)
                              (impliedVolatility row) d) df d)).
  { induction df as [|row df IH]; intros d Hd; [exact Hd|].
    cbn [fold_left]. apply IH, dict_set_distinct, Hd. }
  apply H. exact I.
Qed.

Lemma dict_get_In (d : list (App.key * Q)) (k : App.key) (v : Q) :
  distinct_keys d -> In (k, v) d -> App.dict_get k d = Some v.
Proof.
  induction d as [|[k' v'] d IH]; simpl; [intros _ []|].
  intros [Hk Hd] [[= -> ->]|Hin].
  - rewrite key_eqb_refl. reflexivity.
  - pose proof (Hk _ Hin) as H. simpl in H. rewrite H. exact (IH Hd Hin).
Qed.

Lemma filter_length_le1 {A : Type} (f : A -> bool) (l : list A) :
  (List.length l <= 1)%nat -> (List.length (filter f l) <= 1)%nat.
Proof.
  destruct l as [|x [|y l]]; simpl; intro H; try lia.
  destruct (f x); simpl; lia.
Qed.

Lemma flat_map_one_per_key (f : App.key * Q -> list App.Change)
    (d : list (App.key * Q)) (k : App.key) :
  distinct_keys d ->
  (forall item ch, In ch (f item) ->
                   (App.chg_strike ch, App.chg_expiry ch) = fst item) ->
  (forall item, (List.length (f item) <= 1)%nat) ->
  (List.length
     (filter (fun ch => App.key_eqb (App.chg_strike ch, App.chg_expiry ch) k)
             (flat_map f d)) <= 1)%nat.
Proof.
  intros Hd Hkey Hone. induction d as [|[k0 v0] d IH]; simpl; [lia|].
  destruct Hd as [Hk Hd]. rewrite filter_app, length_app.
  destruct (App.key_eqb k0 k) eqn:E.
  - rewrite (filter_none _ (flat_map f d)).
    + pose proof (filter_length_le1
                    (fun ch => App.key_eqb (App.chg_strike ch, App.chg_expiry ch) k)
                    (f (k0, v0)) (Hone _)). simpl. lia.
    + intros ch Hch. apply in_flat_map in Hch. destruct Hch as (item & Hitem & Hch).
      rewrite (Hkey _ _ Hch).
      destruct (App.key_eqb (fst item) k) eqn:E2; [|reflexivity].
      rewrite key_eqb_sym in E2. specialize (Hk item Hitem).
      assert (App.key_eqb k0 (fst item) = true) by exact (key_eqb_trans _ _ _ E E2).
      congruence.
  - rewrite (filter_none _ (f (k0, v0))).
    + simpl. exact (IH Hd).
    + intros ch Hch. rewrite (Hkey _ _ Hch). exact E.
Qed.

(** X10. In [compare_skews] of [app.py], whatever rows the two frames
    repeat, no key has more than one change, and a change carries the
    implied volatilities of the last row of that key in the current and in
    the baseline frame, which differ by more than the threshold. *)
Theorem X10_one_change_per_key :
  forall (baseline_skew current_skew : list Quote) (threshold : Q),
    (forall k : App.key,
        (List.length
           (filter (fun ch => App.key_eqb (App.chg_strike ch, App.chg_expiry ch) k)
                   (App.compare_frames baseline_skew current_skew threshold))
         <= 1)%nat) /\
    (forall ch : App.Change,
        In ch (App.compare_frames baseline_skew current_skew threshold) ->
        last_iv (App.chg_strike ch, App.chg_expiry ch) current_skew
        = Some (App.current_iv ch) /\
        last_iv (App.chg_strike ch, App.chg_expiry ch) baseline_skew
        = Some (App.baseline_iv ch) /\
        threshold < Qabs (App.current_iv ch - App.baseline_iv ch)).
Proof.
  intros baseline_skew current_skew threshold. split.
  - intro k. unfold App.compare_frames.
    apply flat_map_one_per_key.
    + apply dict_of_distinct.
    + intros [k0 civ] ch Hch.
      destruct (App.dict_get k0 (App.dict_of baseline_skew)) as [biv|]; [|contradiction].
      destruct (Qgtb (Qabs (civ - biv)) threshold); [|contradiction].
      destruct Hch as [<-|[]]. destruct k0; reflexivity.
    + intros [k0 civ].
      destruct (App.dict_get k0 (App.dict_of baseline_skew)) as [biv|]; [|simpl; lia].
      destruct (Qgtb (Qabs (civ - biv)) threshold); simpl; lia.
  - intros ch Hch. apply App_compare_In in Hch.
    destruct Hch as (k & civ & biv & Hin & Hget & Hgt & ->).
    cbn [App.chg_strike App.chg_expiry App.current_iv App.baseline_iv].
    replace (fst k, snd k) with k by (destruct k; reflexivity).
    rewrite <- !dict_last_iv. split; [|split; [exact Hget | exact Hgt]].
    apply dict_get_In; [apply dict_of_distinct | exact Hin].
Qed.

Lemma flat_map_nil {A B : Type} (f : A -> list B) (l : list A) :
  (forall x, In x l -> f x = []) -> flat_map f l = [].
Proof.
  induction l as [|x l IH]; intro H; simpl; [reflexivity|].
  rewrite (H x) by (simpl; auto). apply IH. intros; apply H; simpl; auto.
Qed.

(** X11. In [app.py], a frame compared with itself has no change at any
    threshold that is not negative. *)
Theorem X11_no_change_against_itself :
  forall (df : list Quote) (threshold : Q),
    0 <= threshold -> App.compare_frames df df threshold = [].
Proof.
  intros df threshold Ht. unfold App.compare_frames.
  apply flat_map_nil. intros [k civ] Hin.
  rewrite (dict_get_In _ _ _ (dict_of_distinct df) Hin).
  rewrite not_above_threshold; [reflexivity | ring | exact Ht].
Qed.

(** ** The pipeline of [latest.py] *)

(** A strike that is at, below or above the spot price is labelled ATM or
    ITM by [latest.py]. *)
Lemma Latest_label_comparable (spot_price : Q) (x : Quote) :
  comparable spot_price x -> Latest.label spot_price (strikePrice x) <> OTM.
Proof.
  destruct (Latest_label_rule spot_price (strikePrice x)) as (Ha & Hi & Ho).
  intros [H|[H|H]]; [rewrite (Ha H) | rewrite (Hi H) | rewrite (Ho H)];
    discriminate.
Qed.

(** X12. Classification followed by the skew computation of [latest.py]
    returns no summary for a chain whose strikes are numbers: it raises
    [KeyError] on the frame without columns, returns [None] when no quote
    has a positive implied volatility, and raises [KeyError] when some
    quote has one and every such quote has a strike at, below or above the
    spot price (none of them is then labelled OTM, and line 63 selects the
    ['OTM'] group). *)
Theorem X12_latest_numeric_strikes_no_summary :
  forall spot_price : Q,
    Latest.skew_of_snapshot NoColumns spot_price = Raise KeyError /\
    (forall rows : list Quote,
        (forall x, In x rows -> ~ 0 < impliedVolatility x) ->
        Latest.skew_of_snapshot (Frame rows) spot_price = Return None) /\
    (forall (rows : list Quote) (x : Quote),
        (forall y, In y rows -> 0 < impliedVolatility y -> comparable spot_price y) ->
        In x rows -> 0 < impliedVolatility x ->
        Latest.skew_of_snapshot (Frame rows) spot_price = Raise KeyError).
Proof.
  intro spot_price. split; [reflexivity|]. split.
  - intros rows H. unfold Latest.skew_of_snapshot.
    rewrite Latest_classify_rows. simpl bind.
    unfold Latest.calculate_volatility_skew.
    rewrite (filter_none (fun r : Labeled => iv_positive r)); [reflexivity|].
    intros r Hr. apply in_map_iff in Hr. destruct Hr as (y & <- & Hy). simpl.
    destruct (iv_positive y) eqn:E; [|reflexivity].
    apply iv_positive_spec in E. exfalso. exact (H y Hy E).
  - intros rows x Hcmp Hx Hpos. unfold Latest.skew_of_snapshot.
    rewrite Latest_classify_rows. simpl bind.
    unfold Latest.calculate_volatility_skew.
    set (df := map (fun r => mkLabeled r (Latest.label spot_price (strikePrice r))) rows).
    set (v := filter (fun r : Labeled => iv_positive r) df).
    assert (Hin : In (mkLabeled x (Latest.label spot_price (strikePrice x))) v).
    { apply filter_In. split.
      - apply (in_map (fun r => mkLabeled r (Latest.label spot_price (strikePrice r)))).
        exact Hx.
      - simpl. apply iv_positive_spec. exact Hpos. }
    assert (Hotm : Latest.group_mean OTM v = None).
    { unfold Latest.group_mean.
      rewrite (filter_none (fun r : Labeled => Moneyness_eqb (moneyness r) OTM) v);
        [reflexivity|].
      intros r Hr. apply filter_In in Hr. destruct Hr as [Hr Hrpos].
      apply in_map_iff in Hr. destruct Hr as (y & <- & Hy).
      cbn in Hrpos. apply iv_positive_spec in Hrpos. cbn [moneyness].
      destruct (Moneyness_eqb (Latest.label spot_price (strikePrice y)) OTM) eqn:E;
        [|reflexivity].
      apply Moneyness_eqb_eq in E. exfalso.
      exact (Latest_label_comparable _ _ (Hcmp y Hy Hrpos) E). }
    rewrite Hotm. destruct v as [|y v']; [contradiction|]. cbn [empty].
    destruct (Latest.group_mean ITM (y :: v')); reflexivity.
Qed.

(** ** What classification keeps *)

Lemma RecentTrial_label_cases (spot_price strike : Q) :
  (RecentTrial.label spot_price strike = ATM <-> strike == spot_price) /\
  (RecentTrial.label spot_price strike = ITM <-> strike < spot_price) /\
  (spot_price < strike -> RecentTrial.label spot_price strike = OTM) /\
  (RecentTrial.label spot_price strike = OTM <->
   ~ strike == spot_price /\ ~ strike < spot_price).
Proof.
  destruct (RecentTrial_label_rule spot_price strike) as (Ha & Hi & Ho).
  split; [|split; [|split; [exact Ho|]]].
  - split; [|exact Ha]. intro H.
    destruct (Q_dec strike spot_price) as [[Hlt|Hgt]|Heq]; [| |exact Heq].
    + rewrite (Hi Hlt) in H. discriminate.
    + rewrite (Ho Hgt) in H. discriminate.
  - split; [|exact Hi]. intro H.
    destruct (Q_dec strike spot_price) as [[Hlt|Hgt]|Heq]; [exact Hlt| |].
    + rewrite (Ho Hgt) in H. discriminate.
    + rewrite (Ha Heq) in H. discriminate.
  - split.
    + intro H. split; intro H'.
      * rewrite (Ha H') in H. discriminate.
      * rewrite (Hi H') in H. discriminate.
    + intros [Hne Hnl].
      destruct (Q_dec strike spot_price) as [[Hlt|Hgt]|Heq];
        [contradiction | exact (Ho Hgt) | contradiction].
Qed.

Lemma Latest_label_cases (spot_price strike : Q) :
  (Latest.label spot_price strike = ATM <-> strike == spot_price) /\
  (Latest.label spot_price strike = ITM <->
   strike < spot_price \/ spot_price < strike) /\
  (Latest.label spot_price strike = OTM <->
   ~ strike == spot_price /\ ~ strike < spot_price /\ ~ spot_price < strike).
Proof.
  destruct (Latest_label_rule spot_price strike) as (Ha & Hi & Ho).
  split; [|split].
  - split; [|exact Ha]. intro H.
    destruct (Q_dec strike spot_price) as [[Hlt|Hgt]|Heq]; [| |exact Heq].
    + rewrite (Hi Hlt) in H. discriminate.
    + rewrite (Ho Hgt) in H. discriminate.
  - split; [|intros [H|H]; [exact (Hi H) | exact (Ho H)]]. intro H.
    destruct (Q_dec strike spot_price) as [[Hlt|Hgt]|Heq];
      [left; exact Hlt | right; exact Hgt |].
    rewrite (Ha Heq) in H. discriminate.
  - split.
    + intro H. split; [|split]; intro H'.
      * rewrite (Ha H') in H. discriminate.
      * rewrite (Hi H') in H. discriminate.
      * rewrite (Ho H') in H. discriminate.
    + intros (Hne & Hnl & Hng). exfalso.
      destruct (Q_dec strike spot_price) as [[Hlt|Hgt]|Heq]; contradiction.
Qed.

(** X13. [classify_options] keeps the quotes and their order.
    [recent_trial.py] returns the quotes with a positive implied
    volatility; a quote is labelled ATM exactly when its strike equals the
    spot price, ITM exactly when it is below, and OTM exactly when it is
    neither, which is so when it is above.  [latest.py] returns all
    quotes; a quote is labelled ATM exactly when its strike equals the
    spot price, ITM exactly when it is below or above, and OTM, the label
    of line 46, exactly when it is none of the three. *)
Theorem X13_classification_keeps_the_quotes :
  forall (rows : list Quote) (spot_price : Q),
    (exists df : list Labeled,
        RecentTrial.classify_options (Frame rows) spot_price = Return df /\
        map quote df
        = filter (fun x => negb (Qle_bool (impliedVolatility x) 0)) rows /\
        forall r : Labeled, In r df ->
          (moneyness r = ATM <-> strikePrice r == spot_price) /\
          (moneyness r = ITM <-> strikePrice r < spot_price) /\
          (spot_price < strikePrice r -> moneyness r = OTM) /\
          (moneyness r = OTM <->
           ~ strikePrice r == spot_price /\ ~ strikePrice r < spot_price)) /\
    (exists df : list Labeled,
        Latest.classify_options (Frame rows) spot_price = Return df /\
        map quote df = rows /\
        forall r : Labeled, In r df ->
          (moneyness r = ATM <-> strikePrice r == spot_price) /\
          (moneyness r = ITM <->
           strikePrice r < spot_price \/ spot_price < strikePrice r) /\
          (moneyness r = OTM <->
           ~ strikePrice r == spot_price /\ ~ strikePrice r < spot_price /\
           ~ spot_price < strikePrice r)).
Proof.
  intros rows spot_price. split.
  - eexists. split; [apply RecentTrial_classify_rows|]. split.
    + rewrite map_map. simpl. apply map_id.
    + intros r Hr. apply in_map_iff in Hr. destruct Hr as (x & <- & _). simpl.
      apply RecentTrial_label_cases.
  - eexists. split; [apply Latest_classify_rows|]. split.
    + rewrite map_map. simpl. apply map_id.
    + intros r Hr. apply in_map_iff in Hr. destruct Hr as (x & <- & _). simpl.
      apply Latest_label_cases.
Qed.

(** ** Instances *)


Lemma chain6_one_quote_per_key : one_quote_per_key chain6.
Proof.
  intros x Hx _. simpl in Hx.
  destruct Hx as [<-|[<-|[<-|[<-|[]]]]]; reflexivity.
Qed.

Lemma chain7_one_quote_per_key : one_quote_per_key chain7.
Proof.
  intros x Hx _. simpl in Hx. destruct Hx as [<-|[<-|[]]]; reflexivity.
Qed.

Lemma chain8_one_quote_per_key : one_quote_per_key chain8.
Proof.
  intros x Hx _. simpl in Hx. destruct Hx as [<-|[<-|[]]]; reflexivity.
Qed.

Lemma X5_witness :
  ATM_IV (mkSkewRow 100 ATM "2024-01-25" 0.20 (0.20 - 0.20) 0.20)
  == row_impliedVolatility (mkSkewRow 100 ATM "2024-01-25" 0.20 (0.20 - 0.20) 0.20) /\
  skew (mkSkewRow 100 ATM "2024-01-25" 0.20 (0.20 - 0.20) 0.20) == 0.
Proof.
  apply (X5_atm_row_is_its_own_reference chain6 100 curve6 (Some 0.19)).
  - exact chain6_one_quote_per_key.
  - reflexivity.
  - simpl. auto.
  - reflexivity.
Defined.

Lemma X6_witness : chg_strikePrice change78 == 100.
Proof.
  apply (X6_records_at_the_spot_price (Frame chain8) 100 curve8 (Some 0.20) curve7
           0.05 change78).
  - reflexivity.
  - vm_compute. left. reflexivity.
Defined.

Lemma one_iv_per_key_two (a b : Quote) :
  ~ strikePrice a == strikePrice b -> one_iv_per_key [a; b].
Proof.
  intros Hne x y Hx Hy _ _ Hs _.
  destruct Hx as [<-|[<-|[]]]; destruct Hy as [<-|[<-|[]]];
    try reflexivity; exfalso; apply Hne; [exact Hs | symmetry; exact Hs].
Qed.

Lemma chain7_one_iv_per_key : one_iv_per_key chain7.
Proof. apply one_iv_per_key_two. simpl. intro H. discriminate H. Qed.

Lemma chain8_one_iv_per_key : one_iv_per_key chain8.
Proof. apply one_iv_per_key_two. simpl. intro H. discriminate H. Qed.

Lemma X7_witness :
  skew_change change78 == 0 /\ 0.05 < Qabs (ATM_IV_change change78).
Proof.
  apply (X7_skew_change_is_zero chain7 chain8 100 curve7 curve8 (Some 0.10) (Some 0.20)
           0.05 change78).
  - exact chain7_one_quote_per_key.
  - exact chain8_one_quote_per_key.
  - reflexivity.
  - reflexivity.
  - vm_compute. left. reflexivity.
Defined.

Lemma X8_witness :
  RecentTrial.compare_skews (Some curve8) (Some curve8) 0.05 = None.
Proof.
  apply (X8_no_drift_against_itself chain8 100 curve8 (Some 0.20) 0.05).
  - exact chain8_one_iv_per_key.
  - reflexivity.
  - discriminate.
Defined.

Lemma X9_witness :
  App.dict_get (100, "2024-01-25"%string) (App.dict_of chain9) = Some 0.25 /\
  App.dict_get (120, "2024-01-25"%string) (App.dict_of chain9) = None.
Proof.
  split.
  - apply (proj1 (X9_dict_last_row_wins chain9 (100, "2024-01-25"%string))
             [q 100 "2024-01-25" 0.20] [q 110 "2024-01-25" 0.30]
             (q 100 "2024-01-25" 0.25)).
    + reflexivity.
    + reflexivity.
    + intros r [<-|[]]. reflexivity.
  - apply (proj2 (X9_dict_last_row_wins chain9 (120, "2024-01-25"%string))).
    intros r [<-|[<-|[<-|[]]]]; reflexivity.
Defined.

Lemma X11_witness : App.compare_frames chain9 chain9 0.05 = [].
Proof.
  apply (X11_no_change_against_itself chain9 0.05). discriminate.
Defined.

Lemma X12_witness :
  Latest.skew_of_snapshot (Frame chain2) 105 = Raise KeyError /\
  Latest.skew_of_snapshot (Frame [q 105 "2024-01-25" 0]) 105 = Return None.
Proof.
  split.
  - apply (proj2 (proj2 (X12_latest_numeric_strikes_no_summary 105)) chain2
             (q 95 "2024-02-01" 0.22)).
    + intros y Hy _. simpl in Hy.
      destruct Hy as [<-|[<-|[]]]; right; left; reflexivity.
    + simpl. auto.
    + reflexivity.
  - apply (proj1 (proj2 (X12_latest_numeric_strikes_no_summary 105))).
    intros x [<-|[]]. discriminate.
Defined.

(** ** The summary of [latest.py] *)

Lemma group_mean_Some (m : Moneyness) (df : list Labeled) (a : Q) :
  Latest.group_mean m df = Some a ->
  exists x, In x df /\ moneyness x = m.
Proof.
  unfold Latest.group_mean. intro H.
  destruct (filter (fun r : Labeled => Moneyness_eqb (moneyness r) m) df)
    as [|x l] eqn:Hf; [discriminate|].
  assert (Hx : In x (filter (fun r : Labeled => Moneyness_eqb (moneyness r) m) df))
    by (rewrite Hf; simpl; auto).
  apply filter_In in Hx. destruct Hx as [Hx Hm]. apply Moneyness_eqb_eq in Hm.
  exists x. auto.
Qed.

(** X14. Whenever [calculate_volatility_skew] of [latest.py] returns a
    summary, its ['Skew'] is zero: the summary needs a quote labelled ITM
    and one labelled OTM with positive implied volatilities, and the value
    taken from the difference of their means is the first entry, which
    [fillna(0)] has set to zero.  Its ['ATM_IV'] is the mean implied
    volatility of the ATM quotes, or zero when there is none. *)
Theorem X14_latest_summary_skew_is_zero :
  forall (options_df : list Labeled) (s : Latest.Summary),
    Latest.calculate_volatility_skew options_df = Return (Some s) ->
    Latest.sum_Skew s = 0 /\
    (exists x, In x options_df /\ 0 < impliedVolatility x /\ moneyness x = ITM) /\
    (exists y, In y options_df /\ 0 < impliedVolatility y /\ moneyness y = OTM) /\
    Latest.sum_ATM_IV s
    = match Latest.group_mean ATM
              (filter (fun r : Labeled => iv_positive r) options_df) with
      | Some a => a
      | None => 0
      end.
Proof.
  intros options_df s H. unfold Latest.calculate_volatility_skew in H.
  set (v := filter (fun r : Labeled => iv_positive r) options_df) in *.
  destruct (empty v); [discriminate|].
  destruct (Latest.group_mean ITM v) as [itm|] eqn:Hi; [|discriminate].
  destruct (Latest.group_mean OTM v) as [otm|] eqn:Ho; [|discriminate].
  cbn [Latest.diff Latest.diff_from Latest.fillna map] in H.
  injection H as <-. cbn [Latest.sum_Skew Latest.sum_ATM_IV].
  split; [reflexivity|].
  destruct (group_mean_Some _ _ _ Hi) as (x & Hx & Hxm).
  destruct (group_mean_Some _ _ _ Ho) as (y & Hy & Hym).
  unfold v in Hx, Hy. apply filter_In in Hx, Hy.
  rewrite iv_positive_spec in Hx, Hy.
  split; [exists x; tauto|]. split; [exists y; tauto | reflexivity].
Qed.

Lemma X14_witness :
  Latest.sum_Skew (Latest.mkSummary 0 0) = 0 /\
  (exists x, In x [mkLabeled (q 95 "2024-02-01" 0.22) ITM;
                   mkLabeled (q 105 "2024-02-01" 0.19) OTM] /\
             0 < impliedVolatility x /\ moneyness x = ITM) /\
  (exists y, In y [mkLabeled (q 95 "2024-02-01" 0.22) ITM;
                   mkLabeled (q 105 "2024-02-01" 0.19) OTM] /\
             0 < impliedVolatility y /\ moneyness y = OTM) /\
  Latest.sum_ATM_IV (Latest.mkSummary 0 0)
  = match Latest.group_mean ATM
            (filter (fun r : Labeled => iv_positive r)
               [mkLabeled (q 95 "2024-02-01" 0.22) ITM;
                mkLabeled (q 105 "2024-02-01" 0.19) OTM]) with
    | Some a => a
    | None => 0
    end.
Proof.
  apply (X14_latest_summary_skew_is_zero
           [mkLabeled (q 95 "2024-02-01" 0.22) ITM;
            mkLabeled (q 105 "2024-02-01" 0.19) OTM]
           (Latest.mkSummary 0 0)).
  reflexivity.
Defined.
